(** * LCDMenu.h: menu navigation, dirty tracking and rendering

    A shallow embedding of the three classes of [LCDMenu.h]
    ([LCDMenuParameter] with its subclass [LCDMenuButton], [LCDMenuSection]
    and [LCDMenu]) together with the properties of the navigation /
    dirty-flag / sleep state machine.

    Conventions of the embedding:
    - the target is an AVR Arduino ([WProgram.h]): [int] is 16 bits wide,
      [unsigned long] 32 bits, [float] is IEEE-754 binary32;
    - objects live in a store and are named by locations, as the code
      passes them around by pointer;
    - a member that no constructor has written yet is [Indet]; reading it,
      dereferencing a null pointer and indexing an array out of bounds are
      undefined behaviour, rendered as [None];
    - everything the code sends to the serial port, every [delay] and every
      call of a user callback is recorded in a trace of [Effect]s. *)

From Stdlib Require Import ZArith Lia Bool String.
From Stdlib Require Import Floats.SpecFloat.
From stdpp Require Import base option list gmap.

Local Open Scope Z_scope.

(* ===================================================================== *)
(** ** Machine arithmetic *)
(* ===================================================================== *)

(** [int] on the AVR: 16 bits, two's complement. Signed overflow is left
    undefined by the language; avr-gcc computes it modulo [2^16], which is
    what [int_wrap] does. *)
Definition INT_MIN : Z := -32768.
Definition INT_MAX : Z := 32767.

Definition int_wrap (z : Z) : Z := (z + 32768) mod 65536 - 32768.

Definition int_add (a b : Z) : Z := int_wrap (a + b).
Definition int_sub (a b : Z) : Z := int_wrap (a - b).
Definition int_mul (a b : Z) : Z := int_wrap (a * b).

Definition is_int (z : Z) : Prop := INT_MIN <= z <= INT_MAX.

(** [unsigned long]: 32 bits, arithmetic modulo [2^32]. *)
Definition ULONG_MOD : Z := 4294967296.

Definition ulong_wrap (z : Z) : Z := z mod ULONG_MOD.
Definition ulong_sub (a b : Z) : Z := ulong_wrap (a - b).

(** The usual arithmetic conversion of an [int] compared with an
    [unsigned long]. *)
Definition ulong_of_int (z : Z) : Z := ulong_wrap z.

(** [float]: IEEE-754 binary32, precision 24 and maximal exponent 128. *)
Definition float : Type := spec_float.

Definition float_add (x y : float) : float := SFadd 24 128 x y.
Definition float_mul (x y : float) : float := SFmul 24 128 x y.

(** The C++ operator [!=] on floats: a NaN differs from everything, itself
    included, and the two zeros are equal. *)
Definition float_ne (x y : float) : bool := negb (SFeqb x y).

(** Conversion of an [int] to [float] (exact for a 16-bit integer). *)
Definition float_of_int (z : Z) : float := binary_normalize 24 128 z 0 false.

(* ===================================================================== *)
(** ** Locations, members and effects *)
(* ===================================================================== *)

(** Addresses of objects; a nullable pointer is an [option loc]. *)
Definition loc : Type := positive.

(** Address of a user callback ([SetValueCallback]). *)
Definition fnptr : Type := positive.

(** A data member: not yet written by any constructor, or holding a value. *)
Inductive cell (A : Type) : Type :=
  | Indet
  | Init (a : A).
Arguments Indet {A}.
Arguments Init {A} a.

(** Reading a member is defined only once it has been written. *)
Definition read {A : Type} (c : cell A) : option A :=
  match c with
  | Indet => None
  | Init a => Some a
  end.

(** Modelled from the spec: [Event.h] is not among the sources. The
    callback contract gives the payload as
    [{parameterIdentity: int, timestamp: integer milliseconds since start,
      newValue: number, parameterRef: Parameter}]; the members are named as
    [setValue] assigns them. *)
Record Event : Type := mkEvent {
  source : Z;
  time : Z;
  value : float;
  object : loc
}.

(** What the code does to the outside world. [Serial.print(b, BYTE)] sends
    one raw byte, [Serial.print(n, DEC)] the decimal digits of [n],
    [Serial.print] of a C string the string and [Serial.print] of a float a
    formatted number. *)
Inductive Effect : Type :=
  | SerialByte (b : Z)
  | SerialDec (n : Z)
  | SerialText (s : string)
  | SerialFloat (f : float)
  | DelayMs (ms : Z)
  | Invoke (callback : fnptr) (e : Event).

(** The three ways a call can end. [Undefined] is undefined behaviour;
    [OutOfFuel] means the recursion was cut off before the call returned. *)
Inductive outcome (A : Type) : Type :=
  | OutOfFuel
  | Undefined
  | Returns (a : A).
Arguments OutOfFuel {A}.
Arguments Undefined {A}.
Arguments Returns {A} a.

Definition outcome_of_option {A : Type} (o : option A) : outcome A :=
  match o with
  | None => Undefined
  | Some a => Returns a
  end.

(* ===================================================================== *)
(** ** LCDMenuParameter *)
(* ===================================================================== *)

Module MenuParameter.

Record LCDMenuParameter : Type := mkParameter {
  _name : cell string;
  _id : cell Z;
  _value : cell float;
  _inc : cell float;
  _display_float : cell bool;
  _setValueCallback : cell (option fnptr)
}.

(** [LCDMenuParameter() { }]: the body is empty and no member has an
    initialiser, so every member is left as the allocator handed it out. *)
Definition default_ctor : LCDMenuParameter :=
  mkParameter Indet Indet Indet Indet Indet Indet.

Definition init (in_name : string) (id_tag : Z) (setValueCallback : option fnptr)
    (p : LCDMenuParameter) : LCDMenuParameter :=
  mkParameter (Init in_name) (Init id_tag) (_value p) (_inc p)
              (_display_float p) (Init setValueCallback).

Definition ctor (in_name : string) (id_tag : Z) (in_value in_inc : float)
    (in_display_float : bool) (setValueCallback : option fnptr) : LCDMenuParameter :=
  let p := init in_name id_tag setValueCallback default_ctor in
  mkParameter (_name p) (_id p) (Init in_value) (Init in_inc)
              (Init in_display_float) (_setValueCallback p).

Definition set_value (v : float) (p : LCDMenuParameter) : LCDMenuParameter :=
  mkParameter (_name p) (_id p) (Init v) (_inc p) (_display_float p)
              (_setValueCallback p).

Definition getValue (p : LCDMenuParameter) : option float := read (_value p).

Definition getName (p : LCDMenuParameter) : option string := read (_name p).

(** The base [getDisplayValue] formats into a local buffer and returns
    its address: the pointer dangles as soon as the call returns, so no
    string can be read through it. *)
Definition getDisplayValue (p : LCDMenuParameter) : option string := None.

(** [setValue(float new_value)], called on the object at [this] while
    [millis()] reads [now]. *)
Definition setValue (this : loc) (now : Z) (new_value : float)
    (p : LCDMenuParameter) : option (LCDMenuParameter * list Effect) :=
  match read (_value p) with
  | None => None
  | Some v =>
      if float_ne v new_value then
        let p' := set_value new_value p in
        match read (_setValueCallback p') with
        | None => None
        | Some None => Some (p', [])
        | Some (Some callback) =>
            match read (_id p') with
            | None => None
            | Some id =>
                Some (p', [Invoke callback (mkEvent id now new_value this)])
            end
        end
      else Some (p, [])
  end.

Definition incValue (this : loc) (now : Z) (steps : float)
    (p : LCDMenuParameter) : option (LCDMenuParameter * list Effect) :=
  match read (_value p), read (_inc p) with
  | Some v, Some inc => setValue this now (float_add v (float_mul inc steps)) p
  | _, _ => None
  end.

Definition registerSetValueCallback (newCallback : option fnptr)
    (p : LCDMenuParameter) : LCDMenuParameter :=
  mkParameter (_name p) (_id p) (_value p) (_inc p) (_display_float p)
              (Init newCallback).

Definition isFloatValue (p : LCDMenuParameter) : bool := true.

End MenuParameter.

(* ===================================================================== *)
(** ** LCDMenuButton *)
(* ===================================================================== *)

Module MenuButton.

Import MenuParameter.

(** The base-class subobject followed by the members the subclass adds.
    [_state_values] points to an array of C strings: the list holds the
    strings of that array. *)
Record LCDMenuButton : Type := mkButton {
  base : LCDMenuParameter;
  _num_states : cell Z;
  _state : cell Z;
  _state_values : cell (list string)
}.

(** [LCDMenuButton() { }] *)
Definition default_ctor : LCDMenuButton :=
  mkButton MenuParameter.default_ctor Indet Indet Indet.

(** The constructor runs the base default constructor, then [init] and
    the three assignments: [_value], [_inc] and [_display_float] of the
    base stay unwritten. *)
Definition ctor (in_name : string) (id_tag : Z) (state_values : list string)
    (num_states init_state : Z) (setValueCallback : option fnptr) : LCDMenuButton :=
  mkButton (init in_name id_tag setValueCallback MenuParameter.default_ctor)
           (Init num_states) (Init init_state) (Init state_values).

Definition set_state (s : Z) (b : LCDMenuButton) : LCDMenuButton :=
  mkButton (base b) (_num_states b) (Init s) (_state_values b).

(** [_state_values[_state]] *)
Definition getDisplayValue (b : LCDMenuButton) : option string :=
  match read (_state_values b), read (_state b) with
  | Some values, Some s =>
      if 0 <=? s then values !! Z.to_nat s else None
  | _, _ => None
  end.

Definition validState (state : Z) (b : LCDMenuButton) : option bool :=
  match read (_num_states b) with
  | None => None
  | Some n => Some ((state >=? 0) && (state <? n))
  end.

(** [setValue(int new_value)]. The right operand of [&&] is evaluated
    only when the left one holds. *)
Definition setValue (this : loc) (now : Z) (new_value : Z)
    (b : LCDMenuButton) : option (LCDMenuButton * list Effect) :=
  match read (_state b) with
  | None => None
  | Some s =>
      match (if negb (s =? new_value) then validState new_value b else Some false) with
      | None => None
      | Some true =>
          let b' := set_state new_value b in
          match read (_setValueCallback (base b')) with
          | None => None
          | Some None => Some (b', [])
          | Some (Some callback) =>
              match read (_id (base b')) with
              | None => None
              | Some id =>
                  Some (b', [Invoke callback
                               (mkEvent id now (float_of_int new_value) this)])
              end
          end
      | Some false =>
          match validState s b with
          | None => None
          | Some false => Some (set_state 0 b, [])
          | Some true => Some (b, [])
          end
      end
  end.

(** [incValue(int steps)]. The first branch calls [incValue] again, so
    the embedding is driven by fuel: one unit per call. *)
Fixpoint incValue (fuel : nat) (this : loc) (now : Z) (steps : Z)
    (b : LCDMenuButton) : outcome (LCDMenuButton * list Effect) :=
  match fuel with
  | O => OutOfFuel
  | S fuel' =>
      match read (_state b), read (_num_states b) with
      | Some s, Some n =>
          if int_add s steps >=? n then
            incValue fuel' this now (int_sub (int_add s steps) n) b
          else if int_add s steps <? 0 then
            outcome_of_option
              (setValue this now (int_sub (int_sub n 1) (int_add s steps)) b)
          else
            outcome_of_option (setValue this now (int_add s steps) b)
      | _, _ => Undefined
      end
  end.

Definition isFloatValue (b : LCDMenuButton) : bool := false.

End MenuButton.

(* ===================================================================== *)
(** ** Objects and the store *)
(* ===================================================================== *)

(** A parameter object with its dynamic type. The section and the menu
    hold [LCDMenuParameter*]: through such a pointer the non-virtual
    members ([getValue], [getName], [setValue], [incValue]) are those of
    the base class whatever the dynamic type is, and only [isFloatValue]
    and [getDisplayValue] dispatch on it. *)
Inductive Object : Type :=
  | ObjParameter (p : MenuParameter.LCDMenuParameter)
  | ObjButton (b : MenuButton.LCDMenuButton).

Definition base_of (o : Object) : MenuParameter.LCDMenuParameter :=
  match o with
  | ObjParameter p => p
  | ObjButton b => MenuButton.base b
  end.

Definition with_base (o : Object) (p : MenuParameter.LCDMenuParameter) : Object :=
  match o with
  | ObjParameter _ => ObjParameter p
  | ObjButton b =>
      ObjButton (MenuButton.mkButton p (MenuButton._num_states b)
                   (MenuButton._state b) (MenuButton._state_values b))
  end.

Definition isFloatValue (o : Object) : bool :=
  match o with
  | ObjParameter p => MenuParameter.isFloatValue p
  | ObjButton b => MenuButton.isFloatValue b
  end.

Definition getDisplayValue (o : Object) : option string :=
  match o with
  | ObjParameter p => MenuParameter.getDisplayValue p
  | ObjButton b => MenuButton.getDisplayValue b
  end.

(* ===================================================================== *)
(** ** LCDMenuSection *)
(* ===================================================================== *)

Module MenuSection.

(** [_params] is the array of eight parameter pointers. *)
Record LCDMenuSection : Type := mkSection {
  _params : list (cell loc);
  _num_params : Z;
  _index : Z
}.

Definition ctor : LCDMenuSection :=
  mkSection (replicate 8 Indet) 0 0.

(** [getCurrentParameter()]: the pointer stored at the cursor, or the
    address of a parameter allocated on the spot with
    [new LCDMenuParameter()]. The second component is the store of
    parameter objects after the call. *)
Definition getCurrentParameter (s : LCDMenuSection) (objects : gmap loc Object)
    : option (loc * gmap loc Object) :=
  if (_index s >=? 0) && (_index s <? _num_params s) then
    match _params s !! Z.to_nat (_index s) with
    | None => None
    | Some slot =>
        match read slot with
        | None => None
        | Some p => Some (p, objects)
        end
    end
  else
    let p := fresh (dom objects) in
    Some (p, <[p := ObjParameter MenuParameter.default_ctor]> objects).

(** [addParameter(new_param)]. A store through a negative index would
    land before the array: undefined. *)
Definition addParameter (new_param : loc) (s : LCDMenuSection)
    : option LCDMenuSection :=
  if _num_params s <? 8 then
    if _num_params s <? 0 then None
    else
      Some (mkSection (<[Z.to_nat (_num_params s) := Init new_param]> (_params s))
                      (int_add (_num_params s) 1)
                      (_index s))
  else Some s.

Definition nextItem (s : LCDMenuSection) : LCDMenuSection :=
  if _index s <? int_sub (_num_params s) 1
  then mkSection (_params s) (_num_params s) (int_add (_index s) 1)
  else mkSection (_params s) (_num_params s) 0.

Definition prevItem (s : LCDMenuSection) : LCDMenuSection :=
  if _index s >? 0
  then mkSection (_params s) (_num_params s) (int_sub (_index s) 1)
  else mkSection (_params s) (_num_params s) (int_sub (_num_params s) 1).

End MenuSection.

(* ===================================================================== *)
(** ** The world the menu runs in *)
(* ===================================================================== *)

(** The sections and parameter objects of the application, and the
    millisecond clock behind [millis()]. *)
Record World : Type := mkWorld {
  sections : gmap loc MenuSection.LCDMenuSection;
  objects : gmap loc Object;
  clock : Z
}.

(** A computation in a world: undefined, or a result with the world it
    leaves and the effects it had, oldest first. *)
Definition M (A : Type) : Type := World -> option (A * World * list Effect).

Definition ret {A : Type} (a : A) : M A := fun w => Some (a, w, []).

Definition bind {A B : Type} (m : M A) (k : A -> M B) : M B := fun w =>
  match m w with
  | None => None
  | Some (a, w1, t1) =>
      match k a w1 with
      | None => None
      | Some (b, w2, t2) => Some (b, w2, t1 ++ t2)
      end
  end.

Declare Scope menu_scope.
Delimit Scope menu_scope with menu.
Notation "x <~ m ; k" := (bind m (fun x => k))
  (at level 20, m at level 100, k at level 200, only parsing) : menu_scope.
Local Open Scope menu_scope.

Definition undefined {A : Type} : M A := fun _ => None.

Definition of_option {A : Type} (o : option A) : M A := fun w =>
  match o with
  | None => None
  | Some a => Some (a, w, [])
  end.

Definition emit (t : list Effect) : M unit := fun w => Some (tt, w, t).

(** [Serial.print(n, BYTE)] writes the low byte of [n]. *)
Definition Serial_print_byte (n : Z) : M unit := emit [SerialByte (n mod 256)].
Definition Serial_print_dec (n : Z) : M unit := emit [SerialDec n].
Definition Serial_print_text (s : string) : M unit := emit [SerialText s].
Definition Serial_print_float (f : float) : M unit := emit [SerialFloat f].

(** [delay(ms)] lets the clock advance. *)
Definition delay (ms : Z) : M unit := fun w =>
  Some (tt, mkWorld (sections w) (objects w) (clock w + ms), [DelayMs ms]).

(** [millis()]: the clock as a 32-bit counter. *)
Definition millis : M Z := fun w => Some (ulong_wrap (clock w), w, []).

Definition load_section (p : option loc) : M MenuSection.LCDMenuSection := fun w =>
  match p with
  | None => None
  | Some l =>
      match sections w !! l with
      | None => None
      | Some s => Some (s, w, [])
      end
  end.

Definition store_section (l : loc) (s : MenuSection.LCDMenuSection) : M unit := fun w =>
  Some (tt, mkWorld (<[l := s]> (sections w)) (objects w) (clock w), []).

Definition load_object (l : loc) : M Object := fun w =>
  match objects w !! l with
  | None => None
  | Some o => Some (o, w, [])
  end.

Definition store_object (l : loc) (o : Object) : M unit := fun w =>
  Some (tt, mkWorld (sections w) (<[l := o]> (objects w)) (clock w), []).

(** [section->getCurrentParameter()] on the section a pointer names. *)
Definition section_getCurrentParameter (p : option loc) : M loc :=
  s <~ load_section p;
  fun w =>
    match MenuSection.getCurrentParameter s (objects w) with
    | None => None
    | Some (l, objs) => Some (l, mkWorld (sections w) objs (clock w), [])
    end.

(* ===================================================================== *)
(** ** LCDMenu *)
(* ===================================================================== *)

Module Menu.

(** [_dirt] is the array of the two row flags; [_index] is declared but
    no member function ever writes or reads it. *)
Record LCDMenu : Type := mkMenu {
  _index : cell Z;
  _dirty : bool;
  _dirt : bool * bool;
  _is_asleep : bool;
  _sleep_timeout : Z;
  _last_activity_time : Z;
  _root : option loc;
  _cur_section : option loc
}.

Definition set_dirty (v : bool) (m : LCDMenu) : LCDMenu :=
  mkMenu (_index m) v (_dirt m) (_is_asleep m) (_sleep_timeout m)
         (_last_activity_time m) (_root m) (_cur_section m).

Definition set_dirt (d : bool * bool) (m : LCDMenu) : LCDMenu :=
  mkMenu (_index m) (_dirty m) d (_is_asleep m) (_sleep_timeout m)
         (_last_activity_time m) (_root m) (_cur_section m).

Definition set_is_asleep (v : bool) (m : LCDMenu) : LCDMenu :=
  mkMenu (_index m) (_dirty m) (_dirt m) v (_sleep_timeout m)
         (_last_activity_time m) (_root m) (_cur_section m).

Definition set_last_activity_time (t : Z) (m : LCDMenu) : LCDMenu :=
  mkMenu (_index m) (_dirty m) (_dirt m) (_is_asleep m) (_sleep_timeout m)
         t (_root m) (_cur_section m).

Definition set_root (p : option loc) (m : LCDMenu) : LCDMenu :=
  mkMenu (_index m) (_dirty m) (_dirt m) (_is_asleep m) (_sleep_timeout m)
         (_last_activity_time m) p (_cur_section m).

Definition set_cur_section (p : option loc) (m : LCDMenu) : LCDMenu :=
  mkMenu (_index m) (_dirty m) (_dirt m) (_is_asleep m) (_sleep_timeout m)
         (_last_activity_time m) (_root m) p.

(** [_dirt[i]] for [i] 0 or 1, as a value and as the target of an
    assignment. *)
Definition dirt_get (i : Z) (d : bool * bool) : bool :=
  if i =? 0 then fst d else snd d.

Definition dirt_set (i : Z) (v : bool) (d : bool * bool) : bool * bool :=
  if i =? 0 then (v, snd d) else (fst d, v).

(** *** Model specific commands *)

Definition LCDCommand : M unit := Serial_print_byte 254.

Definition selectLineOne : M unit :=
  _ <~ Serial_print_byte 254;
  _ <~ Serial_print_byte 128;
  delay 10.

Definition selectLineTwo : M unit :=
  _ <~ Serial_print_byte 254;
  _ <~ Serial_print_byte 192;
  delay 10.

(** [goTo(position)]: positions from 32 on are sent to [goTo(0)], which
    takes the first branch, before the closing [delay]. *)
Definition goTo (position : Z) : M unit :=
  _ <~ (if position <? 16 then
          _ <~ Serial_print_byte 254;
          Serial_print_byte (int_add position 128)
        else if position <? 32 then
          _ <~ Serial_print_byte 254;
          Serial_print_byte (int_add (int_add position 48) 128)
        else
          _ <~ Serial_print_byte 254;
          _ <~ Serial_print_byte (int_add 0 128);
          delay 10);
  delay 10.

Definition clearLCD : M unit :=
  _ <~ LCDCommand;
  _ <~ Serial_print_byte 1;
  delay 10.

Definition backlightOn : M unit :=
  _ <~ Serial_print_byte 124;
  _ <~ Serial_print_byte 157;
  delay 10.

Definition backlightOff : M unit :=
  _ <~ Serial_print_byte 124;
  _ <~ Serial_print_byte 128;
  delay 10.

Definition screenSize (size : Z) : M unit :=
  _ <~ Serial_print_byte 124;
  _ <~ Serial_print_dec size;
  delay 10.

(** *** Sleep and wake *)

Definition stayAwake (m : LCDMenu) : M LCDMenu :=
  m <~ (if _is_asleep m
        then (_ <~ backlightOn; ret (set_is_asleep false m))
        else ret m);
  now <~ millis;
  ret (set_last_activity_time now m).

Definition sleep (m : LCDMenu) : M LCDMenu :=
  _ <~ backlightOff;
  ret (set_is_asleep true m).

(** *** Dirty flags *)

Definition setDirty (is_dirty : bool) (row : Z) (m : LCDMenu) : M LCDMenu :=
  let m := set_dirty is_dirty m in
  let m :=
    if row <=? 0 then
      set_dirt (dirt_set 1 is_dirty (dirt_set 0 is_dirty (_dirt m))) m
    else
      set_dirt (dirt_set (if row <=? 2 then int_sub row 1 else 1) is_dirty (_dirt m)) m
  in
  stayAwake m.

Definition isDirty (m : LCDMenu) : bool := _dirty m.

(** *** Rendering *)

Definition printMenu (m : LCDMenu) : M LCDMenu :=
  if _dirty m then
    let m := set_dirty false m in
    _ <~ (if dirt_get 0 (_dirt m) && dirt_get 1 (_dirt m) then clearLCD else ret tt);
    cur_param <~ section_getCurrentParameter (_cur_section m);
    m <~ (if dirt_get 0 (_dirt m) then
            _ <~ selectLineOne;
            o <~ load_object cur_param;
            name <~ of_option (MenuParameter.getName (base_of o));
            _ <~ Serial_print_text name;
            ret (set_dirt (dirt_set 0 false (_dirt m)) m)
          else ret m);
    m <~ (if dirt_get 1 (_dirt m) then
            _ <~ selectLineTwo;
            o <~ load_object cur_param;
            _ <~ (if isFloatValue o then
                    v <~ of_option (MenuParameter.getValue (base_of o));
                    Serial_print_float v
                  else
                    s <~ of_option (getDisplayValue o);
                    Serial_print_text s);
            ret (set_dirt (dirt_set 1 false (_dirt m)) m)
          else ret m);
    ret m
  else
    now <~ millis;
    if ulong_sub now (_last_activity_time m) >? ulong_of_int (_sleep_timeout m)
    then sleep m
    else ret m.

(** *** Navigation and value changes *)

Definition nextItem (m : LCDMenu) : M LCDMenu :=
  s <~ load_section (_cur_section m);
  _ <~ (match _cur_section m with
        | Some l => store_section l (MenuSection.nextItem s)
        | None => undefined
        end);
  setDirty true 0 m.

Definition prevItem (m : LCDMenu) : M LCDMenu :=
  s <~ load_section (_cur_section m);
  _ <~ (match _cur_section m with
        | Some l => store_section l (MenuSection.prevItem s)
        | None => undefined
        end);
  setDirty true 0 m.

(** [getCurrentParameter()] returns an [LCDMenuParameter*] and
    [incValue] is not virtual: the call is the base-class [incValue]
    whatever the object is. *)
Definition incCurrentParam (inc : float) (m : LCDMenu) : M LCDMenu :=
  p <~ section_getCurrentParameter (_cur_section m);
  o <~ load_object p;
  now <~ millis;
  r <~ of_option (MenuParameter.incValue p now inc (base_of o));
  _ <~ store_object p (with_base o (fst r));
  _ <~ emit (snd r);
  setDirty true 2 m.

Definition addSection (section parent : option loc) (m : LCDMenu) : M LCDMenu :=
  let m := set_cur_section section m in
  let m := match _root m with
           | None => set_root section m
           | Some _ => m
           end in
  setDirty true 0 m.

Definition getCurrentSection (m : LCDMenu) : option loc := _cur_section m.

(** *** Construction *)

(** The members [_dirty], [_dirt] and [_last_activity_time] are unwritten
    until the closing [setDirty(true)] assigns all three without reading
    them; the values given to them here are never observed. *)
Definition ctor : M LCDMenu :=
  let m := mkMenu Indet false (false, false) false (int_mul 30 1000) 0 None None in
  _ <~ clearLCD;
  _ <~ backlightOn;
  _ <~ screenSize 5;
  setDirty true 0 m.

(** *** The public operations as a transition system *)

Inductive Op : Type :=
  | OpSetDirty (is_dirty : bool) (row : Z)
  | OpPrintMenu
  | OpNextItem
  | OpPrevItem
  | OpIncCurrentParam (inc : float)
  | OpAddSection (section parent : option loc)
  | OpStayAwake
  | OpSleep.

Definition run (op : Op) (m : LCDMenu) : M LCDMenu :=
  match op with
  | OpSetDirty is_dirty row => setDirty is_dirty row m
  | OpPrintMenu => printMenu m
  | OpNextItem => nextItem m
  | OpPrevItem => prevItem m
  | OpIncCurrentParam inc => incCurrentParam inc m
  | OpAddSection section parent => addSection section parent m
  | OpStayAwake => stayAwake m
  | OpSleep => sleep m
  end.

(** The menus an application can hold when it only makes the calls
    [allowed] admits: the constructed one and those a defined call of a
    public operation leaves. Between two calls the application may do
    anything to its sections, its parameters and the clock, hence the
    fresh world at every step. *)
Inductive reachable_by (allowed : Op -> Prop) : LCDMenu -> Prop :=
  | reachable_ctor (w w' : World) (m : LCDMenu) (t : list Effect) :
      ctor w = Some (m, w', t) ->
      reachable_by allowed m
  | reachable_step (op : Op) (w w' : World) (m m' : LCDMenu) (t : list Effect) :
      reachable_by allowed m ->
      allowed op ->
      run op m w = Some (m', w', t) ->
      reachable_by allowed m'.

Definition reachable : LCDMenu -> Prop := reachable_by (fun _ => True).

(** [setDirty(false, row)] with [row >= 1]: the one call that clears a
    single row flag. *)
Definition clears_single_row (op : Op) : bool :=
  match op with
  | OpSetDirty false row => 0 <? row
  | _ => false
  end.

(** The any-redraw flag is set exactly when a row flag is. *)
Definition flags_agree (m : LCDMenu) : Prop :=
  _dirty m = true <-> (fst (_dirt m) = true \/ snd (_dirt m) = true).

(** The any-redraw flag is set only when a row flag is. *)
Definition flag_has_row (m : LCDMenu) : Prop :=
  _dirty m = true -> fst (_dirt m) = true \/ snd (_dirt m) = true.

(** The row flags after [setDirty(is_dirty, row)], by cases on [row]:
    both rows for [row <= 0], the first row for [row = 1], the second
    row for every other [row]. *)
Definition dirt_after (is_dirty : bool) (row : Z) (d : bool * bool) : bool * bool :=
  if row <=? 0 then (is_dirty, is_dirty)
  else if row =? 1 then (is_dirty, snd d)
  else (fst d, is_dirty).

(** What [stayAwake] sends and how long it takes: the backlight command
    when the display was asleep, nothing otherwise. *)
Definition wake_trace (m : LCDMenu) : list Effect :=
  if _is_asleep m then [SerialByte 124; SerialByte 157; DelayMs 10] else [].

Definition wake_world (m : LCDMenu) (w : World) : World :=
  if _is_asleep m then mkWorld (sections w) (objects w) (clock w + 10) else w.

(** What [printMenu] writes on the second row for an object. *)
Definition row_two (o : Object) : option Effect :=
  if isFloatValue o
  then SerialFloat <$> MenuParameter.getValue (base_of o)
  else SerialText <$> getDisplayValue o.

End Menu.

(* ===================================================================== *)
(** ** Vocabulary of the statements *)
(* ===================================================================== *)

(** A button as its constructor leaves it, possibly after calls of
    [setValue], [incValue] and [registerSetValueCallback]: everything a
    button member function reads has been written. *)
Definition button (nm : cell string) (id : Z) (v i : cell float) (df : cell bool)
    (cb : option fnptr) (values : cell (list string)) (n s : Z)
    : MenuButton.LCDMenuButton :=
  MenuButton.mkButton (MenuParameter.mkParameter nm (Init id) v i df (Init cb))
                      (Init n) (Init s) values.

(** The calls of user callbacks in a trace, oldest first. *)
Definition callback_calls (t : list Effect) : list (fnptr * Event) :=
  omap (fun e => match e with Invoke f ev => Some (f, ev) | _ => None end) t.

(** A navigation call on a section, and a sequence of them applied in
    order. *)
Inductive Nav : Type :=
  | NavNext
  | NavPrev.

Definition navigate1 (c : Nav) (s : MenuSection.LCDMenuSection)
    : MenuSection.LCDMenuSection :=
  match c with
  | NavNext => MenuSection.nextItem s
  | NavPrev => MenuSection.prevItem s
  end.

Fixpoint navigate (calls : list Nav) (s : MenuSection.LCDMenuSection)
    : MenuSection.LCDMenuSection :=
  match calls with
  | [] => s
  | c :: calls' => navigate calls' (navigate1 c s)
  end.

(** *** Reading a trace as the display does *)

(** The number of clear commands ([0xFE 0x01]) in a trace. *)
Fixpoint count_clear (t : list Effect) : nat :=
  match t with
  | [] => O
  | e :: t' =>
      match e, t' with
      | SerialByte b, SerialByte c :: _ =>
          if (b =? 254) && (c =? 1) then S (count_clear t') else count_clear t'
      | _, _ => count_clear t'
      end
  end.

(** The row a cursor command ([0xFE] then a position) selects: positions
    128 to 143 are on row 1, positions 192 to 207 on row 2. *)
Definition row_of_position (pos : Z) : option Z :=
  if (128 <=? pos) && (pos <? 144) then Some 1
  else if (192 <=? pos) && (pos <? 208) then Some 2
  else None.

(** The text writes of a trace, each with the row the cursor was last put
    on ([row] to begin with). *)
Fixpoint row_writes (row : Z) (t : list Effect) : list (Z * Effect) :=
  match t with
  | [] => []
  | e :: t' =>
      match e with
      | SerialText _ | SerialFloat _ => (row, e) :: row_writes row t'
      | SerialByte b =>
          match t' with
          | SerialByte pos :: _ =>
              if b =? 254 then
                match row_of_position pos with
                | Some r => row_writes r t'
                | None => row_writes row t'
                end
              else row_writes row t'
          | _ => row_writes row t'
          end
      | _ => row_writes row t'
      end
  end.

(** The section an application gets by adding the parameters [ps], in
    order, to [s]. *)
Fixpoint add_all (ps : list loc) (s : MenuSection.LCDMenuSection)
    : option MenuSection.LCDMenuSection :=
  match ps with
  | [] => Some s
  | p :: ps' =>
      match MenuSection.addParameter p s with
      | None => None
      | Some s' => add_all ps' s'
      end
  end.

(** The array of a section whose first slots hold [ps]. *)
Definition slots_holding (ps : list loc) : list (cell loc) :=
  (Init <$> ps) ++ replicate (8 - length ps) Indet.

(** *** Sample data *)

(** A world without sections or parameters, at time 0. *)
Definition empty_world : World := mkWorld ∅ ∅ 0.

(** The menu as constructed and then cleared with [setDirty(false)] at
    time 0: no flag set, awake, no section. *)
Definition idle_menu : Menu.LCDMenu :=
  Menu.mkMenu Indet false (false, false) false 30000 0 None None.

(** A numeric parameter "gain" at address 11, alone in the section at
    address 20. *)
Definition gain : MenuParameter.LCDMenuParameter :=
  MenuParameter.ctor "gain" 1 (float_of_int 3) (float_of_int 1) true (Some 2%positive).

Definition gain_world : World :=
  mkWorld {[ 20%positive := MenuSection.mkSection (slots_holding [11%positive]) 1 0 ]}
          {[ 11%positive := ObjParameter gain ]}
          0.

(** A four-state button "mode" at address 12, alone in the section at
    address 21. *)
Definition mode : MenuButton.LCDMenuButton :=
  MenuButton.ctor "mode" 7 ["off"; "low"; "mid"; "high"]%string 4 0 None.

Definition mode_world : World :=
  mkWorld {[ 21%positive := MenuSection.mkSection (slots_holding [12%positive]) 1 0 ]}
          {[ 12%positive := ObjButton mode ]}
          0.

Definition mode_menu : Menu.LCDMenu :=
  Menu.mkMenu Indet true (true, true) false 30000 0
              (Some 21%positive) (Some 21%positive).

(** [idle_menu] after [addSection] of the section at address 20, called
    at time 0. *)
Definition gain_menu : Menu.LCDMenu :=
  Menu.mkMenu Indet true (true, true) false 30000 0
              (Some 20%positive) (Some 20%positive).

(** The calls that count as activity without changing a parameter:
    [setDirty], [nextItem], [prevItem], [addSection] and [stayAwake]. *)
Definition plain_action (op : Menu.Op) : bool :=
  match op with
  | Menu.OpSetDirty _ _ | Menu.OpNextItem | Menu.OpPrevItem
  | Menu.OpAddSection _ _ | Menu.OpStayAwake => true
  | Menu.OpPrintMenu | Menu.OpIncCurrentParam _ | Menu.OpSleep => false
  end.

(** The world with the section at [l] replaced by [s]. *)
Definition with_section (l : loc) (s : MenuSection.LCDMenuSection) (w : World) : World :=
  mkWorld (<[l := s]> (sections w)) (objects w) (clock w).

(** The world with the object at [l] replaced by [o]. *)
Definition with_object (l : loc) (o : Object) (w : World) : World :=
  mkWorld (sections w) (<[l := o]> (objects w)) (clock w).

(* ===================================================================== *)
(** * Properties *)
(* ===================================================================== *)

(** ** Machine arithmetic *)

(** Side conditions "this value fits an [int]". *)
Ltac int_range := unfold is_int, INT_MIN, INT_MAX in *; lia.

Lemma int_wrap_id (z : Z) : is_int z -> int_wrap z = z.
Proof.
  unfold is_int, INT_MIN, INT_MAX, int_wrap. intros Hz.
  rewrite Z.mod_small by lia. lia.
Qed.

Lemma int_wrap_is_int (z : Z) : is_int (int_wrap z).
Proof.
  unfold is_int, INT_MIN, INT_MAX, int_wrap.
  pose proof (Z.mod_pos_bound (z + 32768) 65536). lia.
Qed.

Lemma int_add_id (a b : Z) : is_int (a + b) -> int_add a b = a + b.
Proof. apply int_wrap_id. Qed.

Lemma int_sub_id (a b : Z) : is_int (a - b) -> int_sub a b = a - b.
Proof. apply int_wrap_id. Qed.

Lemma ulong_wrap_id (z : Z) : 0 <= z < ULONG_MOD -> ulong_wrap z = z.
Proof. unfold ulong_wrap. intros Hz. apply Z.mod_small, Hz. Qed.

Lemma ulong_wrap_range (z : Z) : 0 <= ulong_wrap z < ULONG_MOD.
Proof. unfold ulong_wrap, ULONG_MOD. apply Z.mod_pos_bound. lia. Qed.

(** The difference of two counter readings is the time that went by, as
    long as that is less than [2^32] ms: the counter may have rolled over
    in between. *)
Lemma ulong_sub_elapsed (since now : Z) :
  0 <= now - since < ULONG_MOD ->
  ulong_sub (ulong_wrap now) (ulong_wrap since) = now - since.
Proof.
  intros H. unfold ulong_sub, ulong_wrap.
  rewrite <- Zminus_mod. apply Z.mod_small, H.
Qed.

(** C++ [==] on floats is reflexive except on NaN. *)
Lemma float_ne_refl (x : float) : float_ne x x = match x with S754_nan => true | _ => false end.
Proof.
  unfold float_ne, SFeqb, SFcompare.
  destruct x as [s | s | | s m e]; try destruct s; simpl; try reflexivity.
  - rewrite Z.compare_refl, Pos.compare_cont_refl. reflexivity.
  - rewrite Z.compare_refl, Pos.compare_cont_refl. reflexivity.
Qed.

(** ** LCDMenuButton *)

Section ButtonFacts.

Import MenuParameter MenuButton.

Variables (this : loc) (now : Z).

Lemma setValue_button_returns nm id v i df cb values n s new_value :
  exists b' t, setValue this now new_value (button nm id v i df cb values n s) = Some (b', t).
Proof.
  unfold setValue, validState, button; simpl.
  destruct (negb (s =? new_value)); simpl.
  - destruct ((new_value >=? 0) && (new_value <? n)); simpl.
    + destruct cb; eauto.
    + destruct ((s >=? 0) && (s <? n)); eauto.
  - destruct ((s >=? 0) && (s <? n)); eauto.
Qed.

(** A landing state outside [[0, n)] is refused: a valid state stays. *)
Lemma setValue_invalid_target nm id v i df cb values n s new_value :
  0 <= s < n ->
  ~ (0 <= new_value < n) ->
  setValue this now new_value (button nm id v i df cb values n s)
  = Some (button nm id v i df cb values n s, []).
Proof.
  intros Hs Hnew. unfold setValue, validState, button; simpl.
  assert (Hv : (new_value >=? 0) && (new_value <? n) = false).
  { apply andb_false_iff.
    destruct (Z.geb_spec new_value 0); [right | left; reflexivity].
    apply Z.ltb_ge. lia. }
  assert (Hvs : (s >=? 0) && (s <? n) = true).
  { apply andb_true_iff. split; [apply Z.geb_le | apply Z.ltb_lt]; lia. }
  rewrite Hv, Hvs. destruct (negb (s =? new_value)); reflexivity.
Qed.

(** One unfolding of [incValue]. *)
Lemma incValue_S (fuel : nat) (steps : Z) (b : LCDMenuButton) :
  incValue (S fuel) this now steps b =
  match read (_state b), read (_num_states b) with
  | Some s, Some n =>
      if int_add s steps >=? n then
        incValue fuel this now (int_sub (int_add s steps) n) b
      else if int_add s steps <? 0 then
        outcome_of_option
          (setValue this now (int_sub (int_sub n 1) (int_add s steps)) b)
      else
        outcome_of_option (setValue this now (int_add s steps) b)
  | _, _ => Undefined
  end.
Proof. reflexivity. Qed.

Lemma incValue_button_S (fuel : nat) (steps : Z) nm id v i df cb values n s :
  let b := button nm id v i df cb values n s in
  incValue (S fuel) this now steps b =
  if int_add s steps >=? n then
    incValue fuel this now (int_sub (int_add s steps) n) b
  else if int_add s steps <? 0 then
    outcome_of_option
      (setValue this now (int_sub (int_sub n 1) (int_add s steps)) b)
  else
    outcome_of_option (setValue this now (int_add s steps) b).
Proof. reflexivity. Qed.

(** Fuel beyond what a call needs does not change its result. *)
Lemma incValue_fuel_mono (b : LCDMenuButton) (fuel : nat) :
  forall steps r,
    incValue fuel this now steps b = Returns r ->
    incValue (S fuel) this now steps b = Returns r.
Proof.
  induction fuel as [| fuel IH]; intros steps r H; [discriminate |].
  rewrite incValue_S in H. rewrite (incValue_S (S fuel)).
  destruct (read (_state b)) as [s |]; [| discriminate].
  destruct (read (_num_states b)) as [n |]; [| discriminate].
  destruct (int_add s steps >=? n); [| exact H].
  apply IH in H. exact H.
Qed.

(** The recursion of [incValue] on a button in a valid state: each
    recursive call lowers [_state + steps] by [_num_states - _state],
    which is at least one. *)
Lemma incValue_returns_within nm id v i df cb values n s :
  0 <= s < n ->
  forall (k : nat) steps,
    int_add s steps < Z.of_nat k ->
    exists b' t,
      incValue (S k) this now steps (button nm id v i df cb values n s)
      = Returns (b', t).
Proof.
  intros Hs. induction k as [| k IH]; intros steps Hk.
  - rewrite incValue_button_S, Z.geb_leb.
    destruct (Z.leb_spec n (int_add s steps)) as [Hge | Hlt]; [lia |].
    destruct (int_add s steps <? 0);
      match goal with
      | |- context [setValue this now ?x ?b] =>
          destruct (setValue_button_returns nm id v i df cb values n s x)
            as (b' & t & ->)
      end; simpl; eauto.
  - rewrite incValue_button_S, Z.geb_leb.
    destruct (Z.leb_spec n (int_add s steps)) as [Hge | Hlt].
    + apply IH.
      pose proof (int_wrap_is_int (s + steps)) as Hw.
      unfold is_int, INT_MIN, INT_MAX in Hw. fold (int_add s steps) in Hw.
      unfold int_sub at 1.
      rewrite (int_wrap_id (int_add s steps - n)) by int_range.
      unfold int_add at 1.
      rewrite int_wrap_id by int_range.
      lia.
    + destruct (int_add s steps <? 0);
        match goal with
        | |- context [setValue this now ?x ?b] =>
            destruct (setValue_button_returns nm id v i df cb values n s x)
              as (b' & t & ->)
        end; simpl; eauto.
Qed.

(** With the state at [_num_states], [incValue(0)] calls itself with
    the same argument for ever: the validity of the state is what makes
    the recursion stop. *)
Lemma incValue_invalid_state_diverges nm id v i df cb values n :
  0 <= n <= INT_MAX ->
  forall fuel,
    incValue fuel this now 0 (button nm id v i df cb values n n) = OutOfFuel.
Proof.
  intros Hn. induction fuel as [| fuel IH]; [reflexivity |].
  rewrite incValue_button_S.
  assert (Hadd : int_add n 0 = n).
  { unfold int_add. rewrite Z.add_0_r. apply int_wrap_id.
    int_range. }
  rewrite Hadd, Z.geb_leb, Z.leb_refl.
  replace (int_sub n n) with 0; [exact IH |].
  unfold int_sub. rewrite Z.sub_diag. reflexivity.
Qed.

End ButtonFacts.

(** ** Properties of the enumerated parameter *)

(** A step that takes [_state + steps] below zero lands on
    [_num_states - 1 - (_state + steps)], which is never a valid state:
    the button stays where it is and no callback runs. *)
Lemma incValue_below_zero_refused this now nm id v i df cb values n s steps :
  0 <= s < n -> n <= INT_MAX -> is_int steps -> s + steps < 0 ->
  MenuButton.incValue 1 this now steps (button nm id v i df cb values n s)
  = Returns (button nm id v i df cb values n s, []).
Proof.
  unfold INT_MAX, is_int, INT_MIN. intros Hs Hn Hsteps Hneg.
  rewrite incValue_button_S.
  assert (Hadd : int_add s steps = s + steps).
  { apply int_wrap_id. int_range. }
  rewrite Hadd.
  destruct (Z.geb_spec (s + steps) n) as [Hge | _]; [lia |].
  destruct (Z.ltb_spec (s + steps) 0) as [_ | Hge]; [| lia].
  rewrite setValue_invalid_target; [reflexivity | exact Hs |].
  assert (Hn1 : int_sub n 1 = n - 1).
  { apply int_wrap_id. int_range. }
  rewrite Hn1. unfold int_sub, int_wrap.
  pose proof (Z.mod_pos_bound (n - 1 - (s + steps) + 32768) 65536 ltac:(lia)) as Hb.
  destruct (Z_lt_le_dec (n - 1 - (s + steps)) 32768) as [Hsmall | Hbig].
  - rewrite Z.mod_small by lia. lia.
  - replace (n - 1 - (s + steps) + 32768)
      with ((n - 1 - (s + steps) - 32768) + 1 * 65536) by lia.
    rewrite Z.mod_add by lia. rewrite Z.mod_small by lia. lia.
Qed.

(** C1, as the code behaves. On a button with four states standing at
    state 0, [incValue(-1)] leaves the state at 0 and calls nothing: the
    landing state computed is [4 - 1 - (0 + -1) = 4], which [setValue]
    refuses. The specification expects state 3. [incValue(5)] does reach state 1,
    through one recursive call with [0 + 5 - 4 = 1]. *)
Theorem C1_incValue_minus_one_stays_at_0 this now nm id v i df cb values :
  MenuButton.incValue 1 this now (-1) (button nm id v i df cb values 4 0)
  = Returns (button nm id v i df cb values 4 0, [])
  /\ exists t,
       MenuButton.incValue 2 this now 5 (button nm id v i df cb values 4 0)
       = Returns (button nm id v i df cb values 4 1, t).
Proof.
  split; [reflexivity |].
  destruct cb as [f |]; eexists; reflexivity.
Qed.

(** C8. On a button whose state is within [[0, _num_states)],
    [incValue(steps)] returns for every [steps]: some amount of fuel lets
    the call return, and every larger amount gives the same result. *)
Theorem C8_incValue_terminates this now nm id v i df cb values n s steps :
  1 <= n -> 0 <= s < n ->
  exists fuel b' t,
    forall fuel', (fuel <= fuel')%nat ->
      MenuButton.incValue fuel' this now steps (button nm id v i df cb values n s)
      = Returns (b', t).
Proof.
  intros _ Hs.
  destruct (incValue_returns_within this now nm id v i df cb values n s Hs
              (Z.to_nat (int_add s steps + 1)) steps ltac:(lia))
    as (b' & t & Hret).
  exists (S (Z.to_nat (int_add s steps + 1))), b', t.
  intros fuel' Hle. induction Hle as [| fuel' Hle IH]; [exact Hret |].
  apply incValue_fuel_mono, IH.
Qed.

Lemma C8_incValue_terminates_witness :
  exists fuel b' t,
    forall fuel', (fuel <= fuel')%nat ->
      MenuButton.incValue fuel' 1%positive 0 5
        (button (Init "mode"%string) 7 Indet Indet Indet None
                (Init ["a"; "b"; "c"; "d"]%string) 4 0)
      = Returns (b', t).
Proof.
  apply (C8_incValue_terminates 1%positive 0 (Init "mode"%string) 7 Indet Indet
           Indet None (Init ["a"; "b"; "c"; "d"]%string) 4 0 5); lia.
Defined.

(** ** Properties of the numeric parameter *)

(** C2. On a numeric parameter with a registered callback, [setValue(v)]
    with [v] equal to the current value (the C++ [==] on floats) calls
    nothing and leaves the parameter as it was; with [v] different from
    the current value it stores [v] and calls the callback exactly once,
    with an event whose [value] is [v]. *)
Theorem C2_setValue_callback_once this now p cur f id v :
  MenuParameter._value p = Init cur ->
  MenuParameter._setValueCallback p = Init (Some f) ->
  MenuParameter._id p = Init id ->
  exists p' t,
    MenuParameter.setValue this now v p = Some (p', t)
    /\ (float_ne cur v = false -> p' = p /\ callback_calls t = [])
    /\ (v = cur -> cur <> S754_nan -> p' = p /\ callback_calls t = [])
    /\ (float_ne cur v = true ->
        MenuParameter._value p' = Init v
        /\ exists e, callback_calls t = [(f, e)] /\ value e = v
                     /\ e = mkEvent id now v this).
Proof.
  intros Hv Hcb Hid. unfold MenuParameter.setValue. rewrite Hv. cbn [read].
  destruct (float_ne cur v) eqn:Hne.
  - cbn [MenuParameter.set_value MenuParameter._setValueCallback MenuParameter._id].
    rewrite Hcb, Hid. cbn [read]. do 2 eexists. split; [reflexivity |].
    split; [discriminate |]. split.
    + intros -> Hnan. rewrite float_ne_refl in Hne.
      destruct cur; congruence.
    + intros _. split; [reflexivity |]. eexists. repeat split.
  - do 2 eexists. split; [reflexivity |].
    split; [intros _; split; reflexivity |].
    split; [intros _ _; split; reflexivity | discriminate].
Qed.

Lemma C2_setValue_callback_once_witness :
  exists p' t,
    MenuParameter.setValue 9%positive 55 (float_of_int 4)
      (MenuParameter.ctor "gain" 1 (float_of_int 3) (float_of_int 1) true
                          (Some 2%positive))
    = Some (p', t)
    /\ (float_ne (float_of_int 3) (float_of_int 4) = false ->
        p' = MenuParameter.ctor "gain" 1 (float_of_int 3) (float_of_int 1) true
                                (Some 2%positive)
        /\ callback_calls t = [])
    /\ (float_of_int 4 = float_of_int 3 -> float_of_int 3 <> S754_nan ->
        p' = MenuParameter.ctor "gain" 1 (float_of_int 3) (float_of_int 1) true
                                (Some 2%positive)
        /\ callback_calls t = [])
    /\ (float_ne (float_of_int 3) (float_of_int 4) = true ->
        MenuParameter._value p' = Init (float_of_int 4)
        /\ exists e, callback_calls t = [(2%positive, e)]
                     /\ value e = float_of_int 4
                     /\ e = mkEvent 1 55 (float_of_int 4) 9%positive).
Proof.
  apply (C2_setValue_callback_once 9%positive 55
           (MenuParameter.ctor "gain" 1 (float_of_int 3) (float_of_int 1) true
                               (Some 2%positive))
           (float_of_int 3) 2%positive 1 (float_of_int 4));
    reflexivity.
Defined.

(** A NaN is different from itself: storing a NaN over a NaN does call
    the callback. *)
Lemma setValue_nan_over_nan this now nm id inc df f :
  MenuParameter.setValue this now S754_nan
    (MenuParameter.ctor nm id S754_nan inc df (Some f))
  = Some (MenuParameter.ctor nm id S754_nan inc df (Some f),
          [Invoke f (mkEvent id now S754_nan this)]).
Proof. reflexivity. Qed.

(** ** Properties of the section *)

Section SectionFacts.

Import MenuSection.

Lemma nextItem_index (s : LCDMenuSection) :
  0 < _num_params s <= INT_MAX ->
  0 <= _index s < _num_params s ->
  _index (nextItem s) = (_index s + 1) mod _num_params s
  /\ _num_params (nextItem s) = _num_params s
  /\ _params (nextItem s) = _params s.
Proof.
  unfold INT_MAX. intros Hn Hi. unfold nextItem.
  rewrite (int_sub_id (_num_params s) 1) by int_range.
  destruct (Z.ltb_spec (_index s) (_num_params s - 1)) as [Hlt | Hge]; simpl.
  - rewrite (int_add_id (_index s) 1) by int_range.
    rewrite Z.mod_small by lia. auto.
  - replace (_index s + 1) with (_num_params s) by lia.
    rewrite Z.mod_same by lia. auto.
Qed.

Lemma prevItem_index (s : LCDMenuSection) :
  0 < _num_params s <= INT_MAX ->
  0 <= _index s < _num_params s ->
  _index (prevItem s) = (_index s - 1) mod _num_params s
  /\ _num_params (prevItem s) = _num_params s
  /\ _params (prevItem s) = _params s.
Proof.
  unfold INT_MAX. intros Hn Hi. unfold prevItem.
  destruct (Z.gtb_spec (_index s) 0) as [Hgt | Hle]; simpl.
  - rewrite (int_sub_id (_index s) 1) by int_range.
    rewrite Z.mod_small by lia. auto.
  - rewrite (int_sub_id (_num_params s) 1) by int_range.
    replace (_index s - 1) with (-1 + 1 * _num_params s - _num_params s) by lia.
    replace (-1 + 1 * _num_params s - _num_params s)
      with ((_num_params s - 1) + (-1) * _num_params s) by lia.
    rewrite Z.mod_add by lia. rewrite Z.mod_small by lia. auto.
Qed.

(** The cursor of a non-empty section stays in range under any sequence
    of navigation calls. *)
Lemma navigate_in_range (calls : list Nav) :
  forall s : LCDMenuSection,
    0 < _num_params s <= INT_MAX ->
    0 <= _index s < _num_params s ->
    _num_params (navigate calls s) = _num_params s
    /\ 0 <= _index (navigate calls s) < _num_params s.
Proof.
  induction calls as [| c calls IH]; intros s Hn Hi; [simpl; auto |].
  assert (Hstep : _num_params (navigate1 c s) = _num_params s
                  /\ 0 <= _index (navigate1 c s) < _num_params s).
  { destruct c; simpl.
    - destruct (nextItem_index s Hn Hi) as (-> & Hnum & _).
      split; [exact Hnum | apply Z.mod_pos_bound; lia].
    - destruct (prevItem_index s Hn Hi) as (-> & Hnum & _).
      split; [exact Hnum | apply Z.mod_pos_bound; lia]. }
  destruct Hstep as [Hnum Hidx]. simpl.
  destruct (IH (navigate1 c s)) as [Hnum' Hidx'].
  - rewrite Hnum. exact Hn.
  - rewrite Hnum. exact Hidx.
  - rewrite Hnum in Hnum', Hidx'. auto.
Qed.

(** C3. In a section holding at least one parameter, with the cursor
    on one of them, any sequence of [nextItem] / [prevItem] calls leaves
    the cursor within [[0, count)], and from wherever it then stands the
    two calls move it cyclically: [nextItem] from [count - 1] lands on 0
    and [prevItem] from 0 lands on [count - 1]. *)
Theorem C3_cursor_in_range_and_cyclic (s : LCDMenuSection) (calls : list Nav) :
  0 < _num_params s <= INT_MAX ->
  0 <= _index s < _num_params s ->
  let s' := navigate calls s in
  _num_params s' = _num_params s
  /\ 0 <= _index s' < _num_params s
  /\ _index (nextItem s') = (_index s' + 1) mod _num_params s
  /\ _index (prevItem s') = (_index s' - 1) mod _num_params s
  /\ (_index s' = _num_params s - 1 -> _index (nextItem s') = 0)
  /\ (_index s' = 0 -> _index (prevItem s') = _num_params s - 1).
Proof.
  intros Hn Hi s'.
  destruct (navigate_in_range calls s Hn Hi) as [Hnum Hidx].
  fold s' in Hnum, Hidx.
  assert (Hn' : 0 < _num_params s' <= INT_MAX) by (rewrite Hnum; exact Hn).
  assert (Hi' : 0 <= _index s' < _num_params s') by (rewrite Hnum; exact Hidx).
  destruct (nextItem_index s' Hn' Hi') as (Hnext & _ & _).
  destruct (prevItem_index s' Hn' Hi') as (Hprev & _ & _).
  rewrite Hnum in Hnext, Hprev.
  repeat split; try assumption; try lia.
  - intros Hlast. rewrite Hnext, Hlast.
    replace (_num_params s - 1 + 1) with (_num_params s) by lia.
    apply Z.mod_same. lia.
  - intros Hfirst. rewrite Hprev, Hfirst.
    replace (0 - 1) with ((_num_params s - 1) + (-1) * _num_params s) by lia.
    rewrite Z.mod_add by lia. apply Z.mod_small. lia.
Qed.

(** With three parameters, [prevItem] from index 0 lands on index 2. *)
Lemma C3_cursor_in_range_and_cyclic_witness :
  let s := mkSection (slots_holding [1; 2; 3]%positive) 3 0 in
  let s' := navigate [NavNext; NavPrev] s in
  _num_params s' = 3
  /\ 0 <= _index s' < 3
  /\ _index (nextItem s') = (_index s' + 1) mod 3
  /\ _index (prevItem s') = (_index s' - 1) mod 3
  /\ (_index s' = 3 - 1 -> _index (nextItem s') = 0)
  /\ (_index s' = 0 -> _index (prevItem s') = 3 - 1).
Proof.
  apply (C3_cursor_in_range_and_cyclic
           (mkSection (slots_holding [1; 2; 3]%positive) 3 0)
           [NavNext; NavPrev]);
    unfold INT_MAX; simpl; lia.
Defined.

(** [prevItem] then [nextItem] brings the cursor back. *)
Lemma nextItem_prevItem (s : LCDMenuSection) :
  0 < _num_params s <= INT_MAX ->
  0 <= _index s < _num_params s ->
  _index (nextItem (prevItem s)) = _index s.
Proof.
  unfold INT_MAX. intros Hn Hi. unfold nextItem, prevItem.
  destruct (Z.gtb_spec (_index s) 0) as [Hgt | Hle]; simpl.
  - rewrite (int_sub_id (_index s) 1), (int_sub_id (_num_params s) 1) by int_range.
    destruct (Z.ltb_spec (_index s - 1) (_num_params s - 1)); simpl; [| lia].
    rewrite int_add_id by int_range. lia.
  - rewrite (int_sub_id (_num_params s) 1) by int_range.
    rewrite Z.ltb_irrefl. simpl. lia.
Qed.

(** *** Capacity *)

Lemma length_slots_holding (ps : list loc) :
  (length ps <= 8)%nat -> length (slots_holding ps) = 8%nat.
Proof.
  intros H. unfold slots_holding.
  rewrite length_app, length_fmap, length_replicate. lia.
Qed.

Lemma addParameter_slots_holding (ps : list loc) (p : loc) (i : Z) :
  (length ps < 8)%nat ->
  addParameter p (mkSection (slots_holding ps) (Z.of_nat (length ps)) i)
  = Some (mkSection (slots_holding (ps ++ [p])) (Z.of_nat (length (ps ++ [p]))) i).
Proof.
  intros Hlen. unfold addParameter. simpl.
  destruct (Z.ltb_spec (Z.of_nat (length ps)) 8) as [_ | Hge]; [| lia].
  destruct (Z.ltb_spec (Z.of_nat (length ps)) 0) as [Hneg | _]; [lia |].
  rewrite Nat2Z.id. f_equal. f_equal.
  - unfold slots_holding.
    rewrite insert_app_r_alt by (rewrite length_fmap; lia).
    rewrite length_fmap, Nat.sub_diag.
    rewrite length_app. simpl length.
    replace (8 - length ps)%nat with (S (8 - (length ps + 1))) by lia.
    simpl. rewrite fmap_app. simpl. rewrite <- app_assoc. reflexivity.
  - rewrite length_app. simpl length.
    rewrite int_add_id by int_range. lia.
Qed.

(** Adding to a section, starting from the constructed one, keeps the
    first eight parameters in order and drops the rest. *)
Lemma add_all_from (ps : list loc) :
  forall (qs : list loc) (i : Z),
    (length qs <= 8)%nat ->
    add_all ps (mkSection (slots_holding qs) (Z.of_nat (length qs)) i)
    = Some (mkSection (slots_holding (take 8 (qs ++ ps)))
                      (Z.of_nat (length (take 8 (qs ++ ps)))) i).
Proof.
  induction ps as [| p ps IH]; intros qs i Hlen.
  - simpl. rewrite app_nil_r, take_ge by lia. reflexivity.
  - simpl add_all. destruct (decide (length qs < 8)%nat) as [Hlt | Hfull].
    + rewrite addParameter_slots_holding by exact Hlt.
      rewrite IH by (rewrite length_app; simpl; lia).
      rewrite <- app_assoc. reflexivity.
    + assert (Hq : length qs = 8%nat) by lia.
      assert (Hadd : addParameter p
                       (mkSection (slots_holding qs) (Z.of_nat (length qs)) i)
                     = Some (mkSection (slots_holding qs)
                                       (Z.of_nat (length qs)) i)).
      { unfold addParameter. cbn [_num_params]. rewrite Hq. reflexivity. }
      rewrite Hadd, IH by lia.
      rewrite !take_app_le by lia. reflexivity.
Qed.

Lemma add_all_ctor (ps : list loc) :
  add_all ps ctor
  = Some (mkSection (slots_holding (take 8 ps))
                    (Z.of_nat (length (take 8 ps))) 0).
Proof. apply (add_all_from ps [] 0). simpl. lia. Qed.

(** C10. On a section that holds eight parameters, [addParameter(p)]
    changes nothing: the section after the call is the section before
    it, count and stored pointers included, and [p] is not recorded. *)
Theorem C10_addParameter_full_noop (s : LCDMenuSection) (p : loc) :
  _num_params s = 8 ->
  addParameter p s = Some s.
Proof.
  intros Hfull. unfold addParameter. rewrite Hfull. reflexivity.
Qed.

Lemma C10_addParameter_full_noop_witness :
  addParameter 9%positive
    (mkSection (slots_holding [1; 2; 3; 4; 5; 6; 7; 8]%positive) 8 0)
  = Some (mkSection (slots_holding [1; 2; 3; 4; 5; 6; 7; 8]%positive) 8 0).
Proof.
  apply (C10_addParameter_full_noop
           (mkSection (slots_holding [1; 2; 3; 4; 5; 6; 7; 8]%positive) 8 0)
           9%positive).
  reflexivity.
Defined.

End SectionFacts.

(** ** Properties of the menu controller *)

Section MenuFacts.

Import Menu.

(** Unfolds the monadic plumbing of the menu, leaving the look-ups in
    the store and the clock arithmetic in place. *)
Ltac run_menu :=
  cbv beta iota zeta delta
    [bind ret clearLCD LCDCommand selectLineOne selectLineTwo
     Serial_print_byte Serial_print_text Serial_print_float emit
     delay load_object of_option sections objects clock
     set_dirt set_dirty dirt_set dirt_get _dirt _dirty _cur_section
     _index _is_asleep _sleep_timeout _last_activity_time _root
     fst snd andb Z.eqb].

Lemma bind_Some {A B : Type} (c : M A) (k : A -> M B) (w w2 : World)
    (b : B) (t : list Effect) :
  bind c k w = Some (b, w2, t) ->
  exists a w1 t1 t2,
    c w = Some (a, w1, t1) /\ k a w1 = Some (b, w2, t2) /\ t = t1 ++ t2.
Proof.
  unfold bind. intros H.
  destruct (c w) as [[[a w1] t1] |] eqn:Hc; [| discriminate].
  destruct (k a w1) as [[[b' w2'] t2] |] eqn:Hk; [| discriminate].
  injection H as -> -> <-. exists a, w1, t1, t2. auto.
Qed.

(** Splits a defined [bind] in hypothesis [H], keeping the continuation. *)
Ltac bind_inv H :=
  apply bind_Some in H; destruct H as (? & ? & ? & ? & _ & H & _).

(** [stayAwake] wakes the display if need be and then records the time
    it reads. *)
Lemma stayAwake_eq (m : LCDMenu) (w : World) :
  stayAwake m w
  = Some (mkMenu (_index m) (_dirty m) (_dirt m) false (_sleep_timeout m)
                 (ulong_wrap (clock (wake_world m w))) (_root m) (_cur_section m),
          wake_world m w, wake_trace m).
Proof.
  destruct m as [idx d dd asleep timeout last root cur], w as [ss os c].
  destruct asleep; reflexivity.
Qed.

Lemma setDirty_eq (is_dirty : bool) (row : Z) (m : LCDMenu) (w : World) :
  setDirty is_dirty row m w
  = Some (mkMenu (_index m) is_dirty (dirt_after is_dirty row (_dirt m)) false
                 (_sleep_timeout m) (ulong_wrap (clock (wake_world m w)))
                 (_root m) (_cur_section m),
          wake_world m w, wake_trace m).
Proof.
  unfold setDirty, dirt_after.
  destruct (Z.leb_spec row 0) as [Hle | Hgt].
  - rewrite stayAwake_eq. destruct m as [idx d [d0 d1] asleep timeout last root cur].
    reflexivity.
  - rewrite stayAwake_eq. destruct m as [idx d [d0 d1] asleep timeout last root cur].
    destruct (Z.leb_spec row 2) as [Hle2 | Hgt2].
    + assert (Hrow : row = 1 \/ row = 2) by lia.
      destruct Hrow as [-> | ->]; reflexivity.
    + destruct (Z.eqb_spec row 1) as [-> | _]; [lia | reflexivity].
Qed.

Lemma bind_step {A B : Type} (c : M A) (k : A -> M B) (w w1 : World)
    (a : A) (t1 : list Effect) :
  c w = Some (a, w1, t1) ->
  bind c k w = match k a w1 with
               | None => None
               | Some (b, w2, t2) => Some (b, w2, t1 ++ t2)
               end.
Proof. intros H. unfold bind. rewrite H. reflexivity. Qed.

Lemma section_getCurrentParameter_in_range (w : World) l s p :
  sections w !! l = Some s ->
  0 <= MenuSection._index s < MenuSection._num_params s ->
  MenuSection._params s !! Z.to_nat (MenuSection._index s) = Some (Init p) ->
  section_getCurrentParameter (Some l) w = Some (p, w, []).
Proof.
  intros Hsec Hidx Hslot.
  unfold section_getCurrentParameter, bind, load_section,
    MenuSection.getCurrentParameter.
  rewrite Hsec, Hslot.
  destruct (Z.geb_spec (MenuSection._index s) 0) as [_ | Hneg]; [| lia].
  destruct (Z.ltb_spec (MenuSection._index s) (MenuSection._num_params s))
    as [_ | Hge]; [| lia].
  destruct w; reflexivity.
Qed.

(** What [printMenu] sends for the rows marked [d], in a menu showing a
    parameter called [name] whose second row reads [row2]. *)
Lemma printMenu_dirty (m : LCDMenu) (w : World) l s p o name row2 :
  _dirty m = true ->
  _cur_section m = Some l ->
  sections w !! l = Some s ->
  0 <= MenuSection._index s < MenuSection._num_params s ->
  MenuSection._params s !! Z.to_nat (MenuSection._index s) = Some (Init p) ->
  objects w !! p = Some o ->
  MenuParameter.getName (base_of o) = Some name ->
  row_two o = Some row2 ->
  printMenu m w
  = Some (mkMenu (_index m) false (false, false) (_is_asleep m) (_sleep_timeout m)
                 (_last_activity_time m) (_root m) (_cur_section m),
          mkWorld (sections w) (objects w)
                  (clock w
                   + (if fst (_dirt m) && snd (_dirt m) then 10 else 0)
                   + (if fst (_dirt m) then 10 else 0)
                   + (if snd (_dirt m) then 10 else 0)),
          (if fst (_dirt m) && snd (_dirt m)
           then [SerialByte 254; SerialByte 1; DelayMs 10] else [])
          ++ (if fst (_dirt m)
              then [SerialByte 254; SerialByte 128; DelayMs 10; SerialText name]
              else [])
          ++ (if snd (_dirt m)
              then [SerialByte 254; SerialByte 192; DelayMs 10; row2]
              else [])).
Proof.
  intros Hdirty Hcur Hsec Hidx Hslot Hobj Hname Hrow.
  destruct m as [idx d [d0 d1] asleep timeout last root cur].
  destruct w as [ss os c]. simpl in *. subst d cur.
  assert (Hget : forall c',
             section_getCurrentParameter (Some l) (mkWorld ss os c')
             = Some (p, mkWorld ss os c', [])).
  { intros c'. apply (section_getCurrentParameter_in_range _ l s p); assumption. }
  assert (Hrow' : (isFloatValue o = true
                   /\ exists v, MenuParameter.getValue (base_of o) = Some v
                                /\ row2 = SerialFloat v)
                  \/ (isFloatValue o = false
                      /\ exists v, getDisplayValue o = Some v
                                   /\ row2 = SerialText v)).
  { unfold row_two in Hrow. destruct (isFloatValue o); [left | right].
    - destruct (MenuParameter.getValue (base_of o)) as [v |];
        simpl in Hrow; [| discriminate].
      injection Hrow as <-. eauto.
    - destruct (getDisplayValue o) as [v |]; simpl in Hrow; [| discriminate].
      injection Hrow as <-. eauto. }
  clear Hrow.
  unfold printMenu. cbn [_dirty].
  destruct Hrow' as [(Hf & v & Hv & ->) | (Hf & v & Hv & ->)];
    destruct d0, d1;
    repeat (run_menu; rewrite ?Hget, ?Hobj, ?Hname, ?Hf, ?Hv);
    match goal with
    | |- Some (_, mkWorld _ _ ?c1, _) = Some (_, mkWorld _ _ ?c2, _) =>
        replace c2 with c1 by lia; reflexivity
    end.
Qed.

(** With nothing to redraw, [printMenu] only looks at the clock. *)
Lemma printMenu_clean (m : LCDMenu) (w : World) :
  _dirty m = false ->
  printMenu m w
  = if ulong_sub (ulong_wrap (clock w)) (_last_activity_time m)
       >? ulong_of_int (_sleep_timeout m)
    then Some (set_is_asleep true m,
               mkWorld (sections w) (objects w) (clock w + 10),
               [SerialByte 124; SerialByte 128; DelayMs 10])
    else Some (m, w, []).
Proof.
  intros Hclean. unfold printMenu. rewrite Hclean.
  unfold bind at 1. unfold millis at 1.
  destruct (ulong_sub (ulong_wrap (clock w)) (_last_activity_time m)
            >? ulong_of_int (_sleep_timeout m)); reflexivity.
Qed.

(** Whatever a defined [printMenu] on a dirty menu sends, it leaves no
    flag set and touches no other member. *)
Lemma printMenu_dirty_menu (m m' : LCDMenu) (w w' : World) (t : list Effect) :
  _dirty m = true ->
  printMenu m w = Some (m', w', t) ->
  m' = mkMenu (_index m) false (false, false) (_is_asleep m) (_sleep_timeout m)
              (_last_activity_time m) (_root m) (_cur_section m).
Proof.
  intros Hdirty H.
  destruct m as [idx d [d0 d1] asleep timeout last root cur].
  simpl in Hdirty. subst d. unfold printMenu in H. cbn [_dirty] in H.
  bind_inv H.
  bind_inv H.
  apply bind_Some in H. destruct H as (m1 & ? & ? & ? & H0 & H & _).
  apply bind_Some in H. destruct H as (m2 & ? & ? & ? & H1 & H & _).
  unfold ret in H. injection H as <- _ _.
  assert (Hm1 : m1 = mkMenu idx false (false, d1) asleep timeout last root cur).
  { destruct d0;
      cbv beta iota delta [dirt_get dirt_set _dirt set_dirty set_dirt Z.eqb fst snd
                           _index _dirty _is_asleep _sleep_timeout
                           _last_activity_time _root _cur_section] in H0.
    - repeat bind_inv H0.
      unfold ret in H0. injection H0 as <- _ _. reflexivity.
    - unfold ret in H0. injection H0 as <- _ _. reflexivity. }
  subst m1.
  destruct d1;
    cbv beta iota delta [dirt_get dirt_set _dirt set_dirty set_dirt Z.eqb fst snd
                         _index _dirty _is_asleep _sleep_timeout
                         _last_activity_time _root _cur_section] in H1.
  - repeat bind_inv H1.
    unfold ret in H1. injection H1 as <- _ _. reflexivity.
  - unfold ret in H1. injection H1 as <- _ _. reflexivity.
Qed.

Lemma ctor_eq (w : World) :
  ctor w
  = Some (mkMenu Indet true (true, true) false 30000
                 (ulong_wrap (clock w + 10 + 10 + 10)) None None,
          mkWorld (sections w) (objects w) (clock w + 10 + 10 + 10),
          [SerialByte 254; SerialByte 1; DelayMs 10;
           SerialByte 124; SerialByte 157; DelayMs 10;
           SerialByte 124; SerialDec 5; DelayMs 10]).
Proof. destruct w as [ss os c]. reflexivity. Qed.

(** Navigation, value changes and [addSection] all finish with a call
    of [setDirty(true, row)] on a menu with the same flags. *)
Lemma run_ends_with_setDirty (op : Op) (m m' : LCDMenu) (w w' : World)
    (t : list Effect) :
  match op with
  | OpNextItem | OpPrevItem | OpIncCurrentParam _ | OpAddSection _ _ => True
  | _ => False
  end ->
  run op m w = Some (m', w', t) ->
  exists row m0 w0 t0,
    _dirt m0 = _dirt m /\ setDirty true row m0 w0 = Some (m', w', t0).
Proof.
  intros Hop H. destruct op; try contradiction; cbn [run] in H.
  - unfold nextItem in H.
    do 2 bind_inv H.
    do 4 eexists. split; [reflexivity | exact H].
  - unfold prevItem in H.
    do 2 bind_inv H.
    do 4 eexists. split; [reflexivity | exact H].
  - unfold incCurrentParam in H.
    do 6 bind_inv H.
    do 4 eexists. split; [reflexivity | exact H].
  - unfold addSection in H.
    eexists _, _, _, _. split; [| exact H].
    destruct (_root (set_cur_section section m)); reflexivity.
Qed.

Lemma setDirty_true_flags (row : Z) (m m' : LCDMenu) (w w' : World)
    (t : list Effect) :
  setDirty true row m w = Some (m', w', t) ->
  _dirty m' = true /\ (fst (_dirt m') = true \/ snd (_dirt m') = true).
Proof.
  rewrite setDirty_eq. intros H. injection H as <- _ _. simpl.
  unfold dirt_after. split; [reflexivity |].
  destruct (row <=? 0); [left; reflexivity |].
  destruct (row =? 1); [left | right]; reflexivity.
Qed.

(** One call keeps "any-redraw flag set, hence a row flag set". *)
Lemma run_flag_has_row (op : Op) (m m' : LCDMenu) (w w' : World)
    (t : list Effect) :
  flag_has_row m ->
  run op m w = Some (m', w', t) ->
  flag_has_row m'.
Proof.
  unfold flag_has_row. intros Hinv H.
  destruct op;
    try (apply run_ends_with_setDirty in H; [| exact I];
         destruct H as (row & m0 & w0 & t0 & _ & Hset);
         apply setDirty_true_flags in Hset; tauto);
    cbn [run] in H.
  - rewrite setDirty_eq in H. injection H as <- _ _. simpl.
    unfold dirt_after. intros ->.
    destruct (row <=? 0); [left; reflexivity |].
    destruct (row =? 1); [left | right]; reflexivity.
  - destruct (_dirty m) eqn:Hd.
    + rewrite (printMenu_dirty_menu m m' w w' t Hd H). simpl. discriminate.
    + rewrite (printMenu_clean m w Hd) in H.
      destruct (_ >? _); injection H as <- _ _; simpl; rewrite ?Hd; discriminate.
  - rewrite stayAwake_eq in H. injection H as <- _ _. simpl. exact Hinv.
  - unfold sleep in H.
    bind_inv H.
    unfold ret in H. injection H as <- _ _. simpl. exact Hinv.
Qed.

(** One call other than [setDirty(false, row)] with [row >= 1] keeps
    the any-redraw flag equal to the disjunction of the row flags. *)
Lemma run_flags_agree (op : Op) (m m' : LCDMenu) (w w' : World)
    (t : list Effect) :
  clears_single_row op = false ->
  flags_agree m ->
  run op m w = Some (m', w', t) ->
  flags_agree m'.
Proof.
  unfold flags_agree. intros Hop Hinv H.
  destruct op;
    try (apply run_ends_with_setDirty in H; [| exact I];
         destruct H as (row & m0 & w0 & t0 & _ & Hset);
         apply setDirty_true_flags in Hset; tauto);
    cbn [run] in H.
  - rewrite setDirty_eq in H. injection H as <- _ _. simpl.
    unfold dirt_after. simpl in Hop.
    destruct is_dirty.
    + split; [intros _ | reflexivity].
      destruct (row <=? 0); [left; reflexivity |].
      destruct (row =? 1); [left | right]; reflexivity.
    + destruct (Z.leb_spec row 0) as [_ | Hpos]; simpl.
      * split; [discriminate | intros [Hx | Hx]; discriminate].
      * apply Z.ltb_ge in Hop. lia.
  - destruct (_dirty m) eqn:Hd.
    + rewrite (printMenu_dirty_menu m m' w w' t Hd H). simpl.
      split; [discriminate | intros [Hx | Hx]; discriminate].
    + rewrite (printMenu_clean m w Hd) in H.
      destruct (_ >? _); injection H as <- _ _; simpl; rewrite ?Hd; exact Hinv.
  - rewrite stayAwake_eq in H. injection H as <- _ _. simpl. exact Hinv.
  - unfold sleep in H.
    bind_inv H.
    unfold ret in H. injection H as <- _ _. simpl. exact Hinv.
Qed.

(** In every reachable state, a set any-redraw flag comes with a set
    row flag. *)
Lemma reachable_flag_has_row (allowed : Op -> Prop) (m : LCDMenu) :
  reachable_by allowed m -> flag_has_row m.
Proof.
  induction 1 as [w w' m t Hctor | op w w' m m' t _ IH _ Hrun].
  - rewrite ctor_eq in Hctor. injection Hctor as <- _ _.
    intros _. left. reflexivity.
  - exact (run_flag_has_row op m m' w w' t IH Hrun).
Qed.

Lemma idle_menu_reachable : reachable idle_menu.
Proof.
  eapply (reachable_step _ (OpSetDirty false 0) empty_world).
  - eapply (reachable_ctor _ empty_world). apply ctor_eq.
  - exact I.
  - reflexivity.
Qed.

Lemma gain_menu_reachable : reachable gain_menu.
Proof.
  eapply (reachable_step _ (OpAddSection (Some 20%positive) None) gain_world).
  - exact idle_menu_reachable.
  - exact I.
  - reflexivity.
Qed.

(** C4, as the code behaves. As long as the application makes no call
    [setDirty(false, row)] with [row >= 1], in every state the menu
    reaches the any-redraw flag is set if and only if at least one of
    the two row flags is set. *)
Theorem C4_flags_agree_without_single_row_clear (m : LCDMenu) :
  reachable_by (fun op => clears_single_row op = false) m ->
  (_dirty m = true <-> (fst (_dirt m) = true \/ snd (_dirt m) = true)).
Proof.
  induction 1 as [w w' m t Hctor | op w w' m m' t _ IH Hop Hrun].
  - rewrite ctor_eq in Hctor. injection Hctor as <- _ _. simpl.
    split; [left |]; reflexivity.
  - exact (run_flags_agree op m m' w w' t Hop IH Hrun).
Qed.

Lemma C4_flags_agree_without_single_row_clear_witness :
  _dirty gain_menu = true
  <-> (fst (_dirt gain_menu) = true \/ snd (_dirt gain_menu) = true).
Proof.
  apply (C4_flags_agree_without_single_row_clear gain_menu).
  eapply (reachable_step _ (OpAddSection (Some 20%positive) None) gain_world
            gain_world idle_menu gain_menu []).
  - eapply (reachable_step _ (OpSetDirty false 0) empty_world empty_world
              (mkMenu Indet true (true, true) false 30000 30 None None)
              idle_menu []).
    + eapply (reachable_ctor _ empty_world). reflexivity.
    + reflexivity.
    + reflexivity.
  - reflexivity.
  - reflexivity.
Defined.

(** C4 as stated fails: after construction, [setDirty(false, 1)] clears
    the any-redraw flag and the flag of row 1 and leaves the flag of
    row 2 set. *)
Lemma C4_counterexample :
  ~ (forall m : LCDMenu,
       reachable m ->
       (_dirty m = true <-> (fst (_dirt m) = true \/ snd (_dirt m) = true))).
Proof.
  intros Hall.
  assert (Hreach : reachable (mkMenu Indet false (false, true) false 30000 0
                                     None None)).
  { eapply (reachable_step _ (OpSetDirty false 1) empty_world).
    - eapply (reachable_ctor _ empty_world). apply ctor_eq.
    - exact I.
    - reflexivity. }
  apply Hall in Hreach. simpl in Hreach.
  destruct Hreach as [_ Hback]. discriminate Hback. right. reflexivity.
Qed.

(** C7, as the code behaves. [setDirty(is_dirty, row)] sets both row
    flags for every [row <= 0], only the flag of row 1 for [row = 1],
    and only the flag of row 2 for [row = 2] and for every larger [row],
    which acts as [row = 2]. Every call sets the any-redraw flag to
    [is_dirty] and ends with [stayAwake()]: the display is awake and the
    time of last activity is the time read at that moment. *)
Theorem C7_setDirty_rows_and_activity (is_dirty : bool) (row : Z)
    (m : LCDMenu) (w : World) :
  exists m' w' t,
    setDirty is_dirty row m w = Some (m', w', t)
    /\ _dirty m' = is_dirty
    /\ _dirt m' = (if row <=? 0 then (is_dirty, is_dirty)
                   else if row =? 1 then (is_dirty, snd (_dirt m))
                   else (fst (_dirt m), is_dirty))
    /\ setDirty is_dirty row m w
       = setDirty is_dirty (if row <=? 0 then 0 else if row <=? 2 then row else 2) m w
    /\ stayAwake (set_dirt (_dirt m') (set_dirty is_dirty m)) w = Some (m', w', t)
    /\ _is_asleep m' = false
    /\ _last_activity_time m' = ulong_wrap (clock w').
Proof.
  do 3 eexists. split; [apply setDirty_eq |].
  split; [reflexivity |]. split; [reflexivity |]. split.
  - rewrite !setDirty_eq. do 4 f_equal. unfold dirt_after.
    destruct (Z.leb_spec row 0) as [Hle | Hgt]; [reflexivity |].
    destruct (Z.leb_spec row 2) as [Hle2 | Hgt2].
    + destruct (Z.leb_spec row 0); [lia | reflexivity].
    + destruct (Z.eqb_spec row 1); [lia | reflexivity].
  - split; [| split; reflexivity].
    rewrite stayAwake_eq. destruct m; reflexivity.
Qed.

(** C7 as stated fails for a negative row: [setDirty(true, -1)] sets
    both row flags, where [setDirty(true, 2)] sets only the second. *)
Lemma C7_counterexample :
  setDirty true (-1) idle_menu empty_world
  <> setDirty true 2 idle_menu empty_world.
Proof. rewrite !setDirty_eq. simpl. intros H. discriminate H. Qed.

(** C5. In a menu showing a parameter, after [setDirty(true)] one
    call of [printMenu] clears the any-redraw flag and both row flags
    and sends exactly one clear command, then the name on row 1 and the
    value on row 2, one write each. A further [printMenu] while no more
    than the sleep timeout has gone by since the [setDirty] sends
    nothing; this is so in particular right after the first call, 30 ms
    of settle delays later. *)
Theorem C5_full_redraw_then_nothing (m : LCDMenu) (w : World) l s p o name row2 :
  _cur_section m = Some l ->
  sections w !! l = Some s ->
  0 <= MenuSection._index s < MenuSection._num_params s ->
  MenuSection._params s !! Z.to_nat (MenuSection._index s) = Some (Init p) ->
  objects w !! p = Some o ->
  MenuParameter.getName (base_of o) = Some name ->
  row_two o = Some row2 ->
  exists m1 w1 t1 m2 w2 t2,
    setDirty true 0 m w = Some (m1, w1, t1)
    /\ printMenu m1 w1 = Some (m2, w2, t2)
    /\ _dirty m2 = false
    /\ _dirt m2 = (false, false)
    /\ t2 = [SerialByte 254; SerialByte 1; DelayMs 10;
             SerialByte 254; SerialByte 128; DelayMs 10; SerialText name;
             SerialByte 254; SerialByte 192; DelayMs 10; row2]
    /\ count_clear t2 = 1%nat
    /\ row_writes 0 t2 = [(1, SerialText name); (2, row2)]
    /\ (forall w3,
          ulong_sub (ulong_wrap (clock w3)) (_last_activity_time m2)
          <= ulong_of_int (_sleep_timeout m2) ->
          printMenu m2 w3 = Some (m2, w3, []))
    /\ (30 <= ulong_of_int (_sleep_timeout m) ->
        printMenu m2 w2 = Some (m2, w2, [])).
Proof.
  intros Hcur Hsec Hidx Hslot Hobj Hname Hrow.
  assert (Hshape : (exists v, row2 = SerialFloat v) \/ (exists v, row2 = SerialText v)).
  { unfold row_two in Hrow. destruct (isFloatValue o).
    - destruct (MenuParameter.getValue (base_of o)); simpl in Hrow;
        [injection Hrow as <-; eauto | discriminate].
    - destruct (getDisplayValue o); simpl in Hrow;
        [injection Hrow as <-; eauto | discriminate]. }
  do 6 eexists. split; [apply setDirty_eq |]. split.
  { eapply (printMenu_dirty _ _ l s p o name row2); try eassumption;
      try reflexivity.
    - unfold wake_world. destruct (_is_asleep m); exact Hsec.
    - unfold wake_world. destruct (_is_asleep m); exact Hobj. }
  cbn [_dirty _dirt _last_activity_time _sleep_timeout _is_asleep fst snd
       dirt_after Z.leb Z.compare andb app].
  split; [reflexivity |]. split; [reflexivity |]. split; [reflexivity |].
  split; [destruct Hshape as [[v ->] | [v ->]]; reflexivity |].
  split; [destruct Hshape as [[v ->] | [v ->]]; reflexivity |].
  split.
  - intros w3 Hel.
    rewrite printMenu_clean by reflexivity.
    cbn [_last_activity_time _sleep_timeout].
    destruct (Z.gtb_spec
                (ulong_sub (ulong_wrap (clock w3))
                           (ulong_wrap (clock (wake_world m w))))
                (ulong_of_int (_sleep_timeout m))) as [Hgt | _]; [lia |].
    reflexivity.
  - intros Htimeout. rewrite printMenu_clean by reflexivity.
    cbn [_last_activity_time _sleep_timeout clock].
    rewrite ulong_sub_elapsed by (unfold ULONG_MOD; lia).
    destruct (Z.gtb_spec
                (clock (wake_world m w) + 10 + 10 + 10 - clock (wake_world m w))
                (ulong_of_int (_sleep_timeout m))) as [Hgt | _]; [lia |].
    reflexivity.
Qed.

Lemma C5_full_redraw_then_nothing_witness :
  exists m1 w1 t1 m2 w2 t2,
    setDirty true 0 gain_menu gain_world = Some (m1, w1, t1)
    /\ printMenu m1 w1 = Some (m2, w2, t2)
    /\ _dirty m2 = false
    /\ _dirt m2 = (false, false)
    /\ t2 = [SerialByte 254; SerialByte 1; DelayMs 10;
             SerialByte 254; SerialByte 128; DelayMs 10; SerialText "gain";
             SerialByte 254; SerialByte 192; DelayMs 10;
             SerialFloat (float_of_int 3)]
    /\ count_clear t2 = 1%nat
    /\ row_writes 0 t2 = [(1, SerialText "gain"); (2, SerialFloat (float_of_int 3))]
    /\ (forall w3,
          ulong_sub (ulong_wrap (clock w3)) (_last_activity_time m2)
          <= ulong_of_int (_sleep_timeout m2) ->
          printMenu m2 w3 = Some (m2, w3, []))
    /\ (30 <= ulong_of_int (_sleep_timeout gain_menu) ->
        printMenu m2 w2 = Some (m2, w2, [])).
Proof.
  apply (C5_full_redraw_then_nothing gain_menu gain_world 20%positive
           (MenuSection.mkSection (slots_holding [11%positive]) 1 0)
           11%positive (ObjParameter gain) "gain"
           (SerialFloat (float_of_int 3)));
    first [reflexivity | simpl; lia].
Defined.

(** C6. After [stayAwake()], a [printMenu] call with nothing dirty
    leaves the menu awake and sends nothing as long as the time gone by
    since that call, as the millisecond counter measures it, is at most
    the sleep timeout; once it exceeds the timeout, such a call switches
    the backlight off and marks the menu asleep. The counter measures
    the time gone by exactly as long as that is less than [2^32] ms. *)
Theorem C6_sleep_only_after_timeout (m : LCDMenu) (w : World) :
  _dirty m = false ->
  0 <= _sleep_timeout m <= INT_MAX ->
  exists m1 w1 t1,
    stayAwake m w = Some (m1, w1, t1)
    /\ _is_asleep m1 = false
    /\ _last_activity_time m1 = ulong_wrap (clock w1)
    /\ forall w2,
         let elapsed := ulong_sub (ulong_wrap (clock w2)) (ulong_wrap (clock w1)) in
         (0 <= clock w2 - clock w1 < ULONG_MOD -> elapsed = clock w2 - clock w1)
         /\ (elapsed <= _sleep_timeout m ->
             printMenu m1 w2 = Some (m1, w2, []))
         /\ (_sleep_timeout m < elapsed ->
             printMenu m1 w2
             = Some (set_is_asleep true m1,
                     mkWorld (sections w2) (objects w2) (clock w2 + 10),
                     [SerialByte 124; SerialByte 128; DelayMs 10])
             /\ _is_asleep (set_is_asleep true m1) = true).
Proof.
  unfold INT_MAX. intros Hclean Htimeout.
  do 3 eexists. split; [apply stayAwake_eq |].
  split; [reflexivity |]. split; [reflexivity |].
  intros w2. cbv zeta. cbn [clock].
  set (elapsed := ulong_sub (ulong_wrap (clock w2))
                            (ulong_wrap (clock (wake_world m w)))).
  split; [apply ulong_sub_elapsed |].
  assert (Hconv : ulong_of_int (_sleep_timeout m) = _sleep_timeout m).
  { apply ulong_wrap_id. unfold ULONG_MOD. lia. }
  split; intros Hel; [| split; [| reflexivity]];
    rewrite printMenu_clean by exact Hclean;
    cbn [_last_activity_time _sleep_timeout]; rewrite Hconv; fold elapsed;
    destruct (Z.gtb_spec elapsed (_sleep_timeout m)); try lia; reflexivity.
Qed.

Lemma C6_sleep_only_after_timeout_witness :
  exists m1 w1 t1,
    stayAwake idle_menu empty_world = Some (m1, w1, t1)
    /\ _is_asleep m1 = false
    /\ _last_activity_time m1 = ulong_wrap (clock w1)
    /\ forall w2,
         let elapsed := ulong_sub (ulong_wrap (clock w2)) (ulong_wrap (clock w1)) in
         (0 <= clock w2 - clock w1 < ULONG_MOD -> elapsed = clock w2 - clock w1)
         /\ (elapsed <= _sleep_timeout idle_menu ->
             printMenu m1 w2 = Some (m1, w2, []))
         /\ (_sleep_timeout idle_menu < elapsed ->
             printMenu m1 w2
             = Some (set_is_asleep true m1,
                     mkWorld (sections w2) (objects w2) (clock w2 + 10),
                     [SerialByte 124; SerialByte 128; DelayMs 10])
             /\ _is_asleep (set_is_asleep true m1) = true).
Proof.
  apply (C6_sleep_only_after_timeout idle_menu empty_world);
    [reflexivity | unfold INT_MAX; simpl; lia].
Defined.

(** The two sides of the timeout on sample data: 30 000 ms after
    [stayAwake] nothing happens, one millisecond later the display goes
    to sleep. *)
Example printMenu_at_timeout :
  printMenu idle_menu (mkWorld ∅ ∅ 30000) = Some (idle_menu, mkWorld ∅ ∅ 30000, []).
Proof. reflexivity. Qed.

Example printMenu_past_timeout :
  printMenu idle_menu (mkWorld ∅ ∅ 30001)
  = Some (set_is_asleep true idle_menu, mkWorld ∅ ∅ 30011,
          [SerialByte 124; SerialByte 128; DelayMs 10]).
Proof. reflexivity. Qed.

(** A button is drawn with its name and the string of its state. *)
Example printMenu_button :
  printMenu mode_menu mode_world
  = Some (mkMenu Indet false (false, false) false 30000 0
                 (Some 21%positive) (Some 21%positive),
          mkWorld (sections mode_world) (objects mode_world) 30,
          [SerialByte 254; SerialByte 1; DelayMs 10;
           SerialByte 254; SerialByte 128; DelayMs 10; SerialText "mode";
           SerialByte 254; SerialByte 192; DelayMs 10; SerialText "off"]).
Proof. reflexivity. Qed.

(** [incCurrentParam] goes through an [LCDMenuParameter*] and [incValue]
    is not virtual: on a button it is the numeric [incValue] that runs,
    and it reads [_value] and [_inc], which the button constructor never
    writes. *)
Example incCurrentParam_on_button :
  incCurrentParam (float_of_int 1) mode_menu mode_world = None.
Proof. reflexivity. Qed.

(** On a numeric parameter it adds [inc * steps], calls the callback and
    marks row 2. *)
Example incCurrentParam_on_gain :
  incCurrentParam (float_of_int 2) gain_menu gain_world
  = Some (gain_menu,
          mkWorld (sections gain_world)
                  {[ 11%positive :=
                       ObjParameter (MenuParameter.set_value (float_of_int 5) gain) ]}
                  0,
          [Invoke 2%positive (mkEvent 1 0 (float_of_int 5) 11%positive)]).
Proof. vm_compute. reflexivity. Qed.

(** *** The placeholder of an empty section *)

Lemma getCurrentParameter_empty (params : list (cell loc)) (index : Z)
    (objs : gmap loc Object) :
  MenuSection.getCurrentParameter (MenuSection.mkSection params 0 index) objs
  = Some (fresh (dom objs),
          <[fresh (dom objs) := ObjParameter MenuParameter.default_ctor]> objs)
  /\ objs !! fresh (dom objs) = None.
Proof.
  split.
  - assert (Hout : (index >=? 0) && (index <? 0) = false).
    { rewrite Z.geb_leb.
      destruct (Z.leb_spec 0 index), (Z.ltb_spec index 0);
        simpl; try reflexivity; lia. }
    unfold MenuSection.getCurrentParameter.
    cbn [MenuSection._index MenuSection._num_params].
    rewrite Hout. reflexivity.
  - apply not_elem_of_dom. apply is_fresh.
Qed.

(** C9, as the code behaves. On a section without parameters
    [getCurrentParameter()] returns the address of a fresh
    [LCDMenuParameter] built by the default constructor, which writes no
    member: the name and the value of the placeholder are indeterminate,
    not the empty string and zero, and reading either is undefined. *)
Theorem C9_empty_section_placeholder_unwritten
    (params : list (cell loc)) (index : Z) (objs : gmap loc Object) :
  exists p,
    MenuSection.getCurrentParameter (MenuSection.mkSection params 0 index) objs
    = Some (p, <[p := ObjParameter MenuParameter.default_ctor]> objs)
    /\ objs !! p = None
    /\ MenuParameter._name MenuParameter.default_ctor = Indet
    /\ MenuParameter._value MenuParameter.default_ctor = Indet
    /\ MenuParameter.getName MenuParameter.default_ctor = None
    /\ MenuParameter.getValue MenuParameter.default_ctor = None.
Proof.
  exists (fresh (dom objs)).
  destruct (getCurrentParameter_empty params index objs) as [Hget Hfresh].
  repeat split; assumption.
Qed.

(** Drawing a row of that placeholder reads a member nobody wrote:
    [printMenu] on an empty section with a row to redraw is undefined. *)
Lemma printMenu_empty_section_undefined (m : LCDMenu) (w : World) l params index :
  _dirty m = true ->
  fst (_dirt m) = true \/ snd (_dirt m) = true ->
  _cur_section m = Some l ->
  sections w !! l = Some (MenuSection.mkSection params 0 index) ->
  printMenu m w = None.
Proof.
  intros Hdirty Hrow Hcur Hsec.
  destruct m as [idx d [d0 d1] asleep timeout last root cur].
  destruct w as [ss os c]. simpl in *. subst d cur.
  assert (Hget : forall c',
             section_getCurrentParameter (Some l) (mkWorld ss os c')
             = Some (fresh (dom os),
                     mkWorld ss (<[fresh (dom os) :=
                                     ObjParameter MenuParameter.default_ctor]> os) c',
                     [])).
  { intros c'.
    destruct (getCurrentParameter_empty params index os) as [Hout _].
    unfold section_getCurrentParameter, bind, load_section.
    cbn [sections objects clock]. rewrite Hsec.
    cbn [sections objects clock]. rewrite Hout. reflexivity. }
  unfold printMenu. cbn [_dirty].
  destruct d0, d1; try (destruct Hrow; discriminate);
    repeat (run_menu; rewrite ?Hget, ?lookup_insert_eq);
    reflexivity.
Qed.

End MenuFacts.

(* ===================================================================== *)
(** * Further properties of the code *)
(* ===================================================================== *)

(** ** LCDMenuButton: [setValue], [incValue], [getDisplayValue] *)

Section ButtonCoverage.

Import MenuParameter MenuButton.

(** [setValue] on a button, by cases: the state it leaves and the
    callback it calls. *)
Lemma setValue_button_cases this now nm id v i df cb values n s new_value :
  setValue this now new_value (button nm id v i df cb values n s)
  = Some (button nm id v i df cb values n
            (if negb (s =? new_value) && ((new_value >=? 0) && (new_value <? n))
             then new_value
             else if (s >=? 0) && (s <? n) then s else 0),
          if negb (s =? new_value) && ((new_value >=? 0) && (new_value <? n))
          then match cb with
               | Some f => [Invoke f (mkEvent id now (float_of_int new_value) this)]
               | None => []
               end
          else []).
Proof.
  unfold setValue, validState, button; simpl.
  destruct (negb (s =? new_value)); simpl.
  - destruct ((new_value >=? 0) && (new_value <? n)); simpl.
    + destruct cb; reflexivity.
    + destruct ((s >=? 0) && (s <? n)); reflexivity.
  - destruct ((s >=? 0) && (s <? n)); reflexivity.
Qed.

Lemma valid_state_true (n x : Z) : 0 <= x < n -> (x >=? 0) && (x <? n) = true.
Proof.
  intros H. apply andb_true_iff. split; [apply Z.geb_le | apply Z.ltb_lt]; lia.
Qed.

Lemma valid_state_false (n x : Z) : ~ 0 <= x < n -> (x >=? 0) && (x <? n) = false.
Proof.
  intros H. apply andb_false_iff.
  destruct (Z.geb_spec x 0); [right; apply Z.ltb_ge; lia | left; reflexivity].
Qed.

(** X1. Whatever state a button is in and whatever value is passed,
    [setValue] leaves the button in a valid state (given at least one
    state): a valid new value is taken, an invalid one is ignored when the
    current state is valid, and an invalid current state is reset to 0.
    The callback runs only when the state moves to a different, valid
    value, and then with that value; the reset to 0 calls nothing. *)
Theorem X1_button_setValue_valid_state this now nm id v i df cb values n s new_value :
  1 <= n ->
  exists s' t,
    setValue this now new_value (button nm id v i df cb values n s)
    = Some (button nm id v i df cb values n s', t)
    /\ 0 <= s' < n
    /\ (0 <= new_value < n -> s' = new_value)
    /\ (~ 0 <= new_value < n -> 0 <= s < n -> s' = s)
    /\ (~ 0 <= new_value < n -> ~ 0 <= s < n -> s' = 0)
    /\ (s <> new_value -> 0 <= new_value < n ->
        t = match cb with
            | Some f => [Invoke f (mkEvent id now (float_of_int new_value) this)]
            | None => []
            end)
    /\ (s = new_value \/ ~ 0 <= new_value < n -> t = []).
Proof.
  intros Hn. do 2 eexists. split; [apply setValue_button_cases |].
  destruct (Z.eqb_spec s new_value) as [Heq | Hne]; simpl.
  - subst new_value.
    destruct (decide (0 <= s < n)) as [Hs | Hs].
    + rewrite (valid_state_true n s Hs). repeat split; try lia; tauto.
    + rewrite (valid_state_false n s Hs). repeat split; try lia; tauto.
  - destruct (decide (0 <= new_value < n)) as [Hv | Hv].
    + rewrite (valid_state_true n new_value Hv). repeat split; try lia; tauto.
    + rewrite (valid_state_false n new_value Hv).
      destruct (decide (0 <= s < n)) as [Hs | Hs].
      * rewrite (valid_state_true n s Hs). repeat split; try lia; tauto.
      * rewrite (valid_state_false n s Hs). repeat split; try lia; tauto.
Qed.

Lemma X1_button_setValue_valid_state_witness :
  exists s' t,
    setValue 12%positive 0 9 (button (Init "mode"%string) 7 Indet Indet Indet
                                     (Some 3%positive) (Init []) 4 7)
    = Some (button (Init "mode"%string) 7 Indet Indet Indet (Some 3%positive)
                   (Init []) 4 s', t)
    /\ 0 <= s' < 4
    /\ (0 <= 9 < 4 -> s' = 9)
    /\ (~ 0 <= 9 < 4 -> 0 <= 7 < 4 -> s' = 7)
    /\ (~ 0 <= 9 < 4 -> ~ 0 <= 7 < 4 -> s' = 0)
    /\ (7 <> 9 -> 0 <= 9 < 4 ->
        t = [Invoke 3%positive (mkEvent 7 0 (float_of_int 9) 12%positive)])
    /\ (7 = 9 \/ ~ 0 <= 9 < 4 -> t = []).
Proof.
  apply (X1_button_setValue_valid_state 12%positive 0 (Init "mode"%string) 7
           Indet Indet Indet (Some 3%positive) (Init []) 4 7 9).
  lia.
Defined.

(** Going up from a valid state: [incValue(steps)] with [steps >= 0]
    ends in [setValue(_state + steps mod (_num_states - _state))]. Every
    recursive call adds [_state] to its argument again, so what is taken
    off per round is [_num_states - _state], not [_num_states]. *)
Lemma incValue_forward_within this now nm id v i df cb values n s :
  0 <= s < n -> n <= INT_MAX ->
  forall (k : nat) steps,
    0 <= steps -> s + steps <= INT_MAX ->
    s + steps < Z.of_nat k ->
    incValue (S k) this now steps (button nm id v i df cb values n s)
    = outcome_of_option
        (setValue this now (s + steps mod (n - s))
                  (button nm id v i df cb values n s)).
Proof.
  unfold INT_MAX. intros Hs Hn. induction k as [| k IH]; intros steps H0 Hmax Hk.
  - lia.
  - rewrite incValue_button_S.
    rewrite (int_add_id s steps) by int_range.
    rewrite Z.geb_leb.
    destruct (Z.leb_spec n (s + steps)) as [Hge | Hlt].
    + rewrite (int_sub_id (s + steps) n) by int_range.
      rewrite IH by lia.
      replace (s + steps - n) with (steps + (-1) * (n - s)) by lia.
      rewrite Z.mod_add by lia. reflexivity.
    + destruct (Z.ltb_spec (s + steps) 0) as [Hneg | _]; [lia |].
      rewrite (Z.mod_small steps (n - s)) by lia. reflexivity.
Qed.

(** X2. From a valid state, [incValue(steps)] with [steps >= 0] lands on
    [_state + steps mod (_num_states - _state)]: a state between the
    current one and the last one. Only from state 0 is this the cyclic
    [steps mod _num_states]; from any other state the button never comes
    back to a state below the one it stands on. *)
Theorem X2_button_incValue_forward_landing this now nm id v i df cb values n s steps :
  0 <= s < n -> n <= INT_MAX -> 0 <= steps -> s + steps <= INT_MAX ->
  exists fuel t,
    incValue fuel this now steps (button nm id v i df cb values n s)
    = Returns (button nm id v i df cb values n (s + steps mod (n - s)), t)
    /\ s <= s + steps mod (n - s) < n.
Proof.
  intros Hs Hn H0 Hmax.
  pose proof (Z.mod_pos_bound steps (n - s) ltac:(lia)) as Hmod.
  exists (S (Z.to_nat (s + steps + 1))).
  rewrite (incValue_forward_within this now nm id v i df cb values n s Hs Hn)
    by lia.
  rewrite setValue_button_cases.
  rewrite (valid_state_true n (s + steps mod (n - s))) by lia.
  rewrite (valid_state_true n s) by lia.
  destruct (Z.eqb_spec s (s + steps mod (n - s))) as [Heq | Hne]; simpl;
    eexists; (split; [| lia]).
  - rewrite <- Heq. reflexivity.
  - reflexivity.
Qed.

Lemma X2_button_incValue_forward_landing_witness :
  exists fuel t,
    incValue fuel 12%positive 0 5
      (button (Init "mode"%string) 7 Indet Indet Indet None (Init []) 4 1)
    = Returns (button (Init "mode"%string) 7 Indet Indet Indet None (Init []) 4
                      (1 + 5 mod (4 - 1)), t)
    /\ 1 <= 1 + 5 mod (4 - 1) < 4.
Proof.
  apply (X2_button_incValue_forward_landing 12%positive 0 (Init "mode"%string) 7
           Indet Indet Indet None (Init []) 4 1 5);
    unfold INT_MAX; lia.
Defined.

(** X3. A button standing on its last state does not move forward:
    [incValue(steps)] with any [steps >= 0] leaves it on the last state
    and calls no callback. In particular [incValue(1)] does not cycle
    from the last state to the first. *)
Theorem X3_button_incValue_stuck_on_last_state this now nm id v i df cb values n steps :
  1 <= n <= INT_MAX -> 0 <= steps -> n - 1 + steps <= INT_MAX ->
  exists fuel,
    incValue fuel this now steps (button nm id v i df cb values n (n - 1))
    = Returns (button nm id v i df cb values n (n - 1), []).
Proof.
  intros Hn H0 Hmax.
  exists (S (Z.to_nat (n - 1 + steps + 1))).
  rewrite (incValue_forward_within this now nm id v i df cb values n (n - 1))
    by lia.
  replace (n - (n - 1)) with 1 by lia. rewrite Z.mod_1_r, Z.add_0_r.
  rewrite setValue_button_cases, Z.eqb_refl. simpl.
  rewrite (valid_state_true n (n - 1)) by lia. reflexivity.
Qed.

Lemma X3_button_incValue_stuck_on_last_state_witness :
  exists fuel,
    incValue fuel 12%positive 0 1
      (button (Init "mode"%string) 7 Indet Indet Indet (Some 3%positive)
              (Init []) 4 (4 - 1))
    = Returns (button (Init "mode"%string) 7 Indet Indet Indet (Some 3%positive)
                      (Init []) 4 (4 - 1), []).
Proof.
  apply (X3_button_incValue_stuck_on_last_state 12%positive 0 (Init "mode"%string)
           7 Indet Indet Indet (Some 3%positive) (Init []) 4 1);
    unfold INT_MAX; lia.
Defined.

(** From a valid state every call of [incValue] returns a button in a
    valid state. *)
Lemma incValue_valid_within this now nm id v i df cb values n s :
  0 <= s < n ->
  forall (k : nat) steps,
    int_add s steps < Z.of_nat k ->
    exists s' t,
      incValue (S k) this now steps (button nm id v i df cb values n s)
      = Returns (button nm id v i df cb values n s', t)
      /\ 0 <= s' < n.
Proof.
  intros Hs.
  assert (Hset : forall x, exists s' t,
             outcome_of_option
               (setValue this now x (button nm id v i df cb values n s))
             = Returns (button nm id v i df cb values n s', t)
             /\ 0 <= s' < n).
  { intros x. rewrite setValue_button_cases. do 2 eexists.
    split; [reflexivity |].
    rewrite (valid_state_true n s Hs).
    destruct (negb (s =? x)); simpl; [| lia].
    destruct (decide (0 <= x < n)) as [Hx | Hx].
    - rewrite (valid_state_true n x Hx). lia.
    - rewrite (valid_state_false n x Hx). lia. }
  induction k as [| k IH]; intros steps Hk.
  - rewrite incValue_button_S, Z.geb_leb.
    destruct (Z.leb_spec n (int_add s steps)) as [Hge | Hlt]; [lia |].
    destruct (int_add s steps <? 0); apply Hset.
  - rewrite incValue_button_S, Z.geb_leb.
    destruct (Z.leb_spec n (int_add s steps)) as [Hge | Hlt].
    + apply IH.
      pose proof (int_wrap_is_int (s + steps)) as Hw.
      unfold is_int, INT_MIN, INT_MAX in Hw. fold (int_add s steps) in Hw.
      rewrite (int_sub_id (int_add s steps) n) by int_range.
      rewrite int_add_id by int_range. lia.
    + destruct (int_add s steps <? 0); apply Hset.
Qed.

(** X4. From a valid state, [incValue(steps)] returns for every [steps]
    with the button again in a valid state, and if the array of display
    strings has at least [_num_states] entries, [getDisplayValue] then
    reads inside the array. *)
Theorem X4_button_incValue_keeps_state_valid this now nm id v i df cb strings n s steps :
  0 <= s < n -> n <= Z.of_nat (length strings) ->
  exists fuel s' t str,
    incValue fuel this now steps (button nm id v i df cb (Init strings) n s)
    = Returns (button nm id v i df cb (Init strings) n s', t)
    /\ 0 <= s' < n
    /\ getDisplayValue (button nm id v i df cb (Init strings) n s') = Some str
    /\ strings !! Z.to_nat s' = Some str.
Proof.
  intros Hs Hlen.
  destruct (incValue_valid_within this now nm id v i df cb (Init strings) n s Hs
              (Z.to_nat (int_add s steps + 1)) steps ltac:(lia))
    as (s' & t & Hret & Hs').
  destruct (lookup_lt_is_Some_2 strings (Z.to_nat s') ltac:(lia)) as [str Hstr].
  exists (S (Z.to_nat (int_add s steps + 1))), s', t, str.
  split; [exact Hret |]. split; [exact Hs' |]. split; [| exact Hstr].
  unfold getDisplayValue, button. simpl.
  destruct (Z.leb_spec 0 s'); [exact Hstr | lia].
Qed.

Lemma X4_button_incValue_keeps_state_valid_witness :
  exists fuel s' t str,
    incValue fuel 12%positive 0 (-3)
      (button (Init "mode"%string) 7 Indet Indet Indet None
              (Init ["off"; "low"; "mid"; "high"]%string) 4 2)
    = Returns (button (Init "mode"%string) 7 Indet Indet Indet None
                      (Init ["off"; "low"; "mid"; "high"]%string) 4 s', t)
    /\ 0 <= s' < 4
    /\ getDisplayValue (button (Init "mode"%string) 7 Indet Indet Indet None
                               (Init ["off"; "low"; "mid"; "high"]%string) 4 s')
       = Some str
    /\ ["off"; "low"; "mid"; "high"]%string !! Z.to_nat s' = Some str.
Proof.
  apply (X4_button_incValue_keeps_state_valid 12%positive 0 (Init "mode"%string) 7
           Indet Indet Indet None ["off"; "low"; "mid"; "high"]%string 4 2 (-3));
    simpl; lia.
Defined.

(** X23. From a valid state, [incValue(steps)] with negative [steps]
    steps down to [_state + steps] as long as that is not below 0, with
    the callback called for the new state; a step that would pass below
    0 is dropped altogether: the button stays where it is and nothing is
    called. It never wraps round to the last states. *)
Theorem X23_button_incValue_backward_landing this now nm id v i df cb values n s steps :
  0 <= s < n -> n <= INT_MAX -> INT_MIN <= steps < 0 ->
  incValue 1 this now steps (button nm id v i df cb values n s)
  = Returns (button nm id v i df cb values n (if 0 <=? s + steps then s + steps else s),
             if 0 <=? s + steps
             then match cb with
                  | Some f => [Invoke f (mkEvent id now (float_of_int (s + steps)) this)]
                  | None => []
                  end
             else []).
Proof.
  intros Hs Hn Hsteps. destruct (Z.leb_spec 0 (s + steps)) as [Hge | Hlt].
  - unfold INT_MAX, INT_MIN in *.
    rewrite incValue_button_S, (int_add_id s steps) by int_range.
    rewrite Z.geb_leb.
    destruct (Z.leb_spec n (s + steps)); [lia |].
    destruct (Z.ltb_spec (s + steps) 0); [lia |].
    rewrite setValue_button_cases.
    rewrite (valid_state_true n (s + steps)) by lia.
    destruct (Z.eqb_spec s (s + steps)); [lia | reflexivity].
  - apply incValue_below_zero_refused; try assumption.
    unfold is_int, INT_MAX, INT_MIN in *. lia.
Qed.

Lemma X23_button_incValue_backward_landing_witness :
  incValue 1 12%positive 0 (-2)
    (button (Init "mode"%string) 7 Indet Indet Indet None (Init []) 4 1)
  = Returns (button (Init "mode"%string) 7 Indet Indet Indet None (Init []) 4
                    (if 0 <=? 1 + -2 then 1 + -2 else 1),
             if 0 <=? 1 + -2
             then []
             else []).
Proof.
  apply (X23_button_incValue_backward_landing 12%positive 0 (Init "mode"%string) 7
           Indet Indet Indet None (Init []) 4 1 (-2));
    unfold INT_MAX, INT_MIN; lia.
Defined.

(** X24. The button constructor takes [init_state] as it comes. With an
    initial state outside the array of display strings,
    [getDisplayValue] reads outside the array; the first [setValue],
    whatever its argument, brings the button to a valid state, after
    which [getDisplayValue] returns one of the strings. *)
Theorem X24_button_ctor_does_not_validate this now nm id strings n init_state cb new_value :
  1 <= n <= Z.of_nat (length strings) ->
  ~ 0 <= init_state < Z.of_nat (length strings) ->
  getDisplayValue (ctor nm id strings n init_state cb) = None
  /\ exists b' t str,
       setValue this now new_value (ctor nm id strings n init_state cb) = Some (b', t)
       /\ getDisplayValue b' = Some str
       /\ In str strings.
Proof.
  intros Hn Hout. split.
  - unfold getDisplayValue, ctor. simpl.
    destruct (Z.leb_spec 0 init_state); [| reflexivity].
    apply lookup_ge_None. lia.
  - change (ctor nm id strings n init_state cb)
      with (button (Init nm) id Indet Indet Indet cb (Init strings) n init_state).
    rewrite setValue_button_cases.
    rewrite (valid_state_false n init_state) by lia.
    set (s' := if negb (init_state =? new_value)
                  && ((new_value >=? 0) && (new_value <? n))
               then new_value else 0).
    assert (Hs' : 0 <= s' < n).
    { subst s'. destruct (negb (init_state =? new_value)); simpl; [| lia].
      destruct (decide (0 <= new_value < n)) as [Hv | Hv].
      - rewrite (valid_state_true n new_value Hv). lia.
      - rewrite (valid_state_false n new_value Hv). lia. }
    destruct (lookup_lt_is_Some_2 strings (Z.to_nat s') ltac:(lia)) as [str Hstr].
    do 2 eexists. exists str. split; [reflexivity |]. split.
    + unfold getDisplayValue, button. simpl. fold s'.
      destruct (Z.leb_spec 0 s'); [exact Hstr | lia].
    + apply list_elem_of_In. eapply list_elem_of_lookup_2, Hstr.
Qed.

Lemma X24_button_ctor_does_not_validate_witness :
  getDisplayValue (ctor "mode" 7 ["off"; "low"; "mid"; "high"]%string 4 4 None) = None
  /\ exists b' t str,
       setValue 12%positive 0 9
                (ctor "mode" 7 ["off"; "low"; "mid"; "high"]%string 4 4 None)
       = Some (b', t)
       /\ getDisplayValue b' = Some str
       /\ In str ["off"; "low"; "mid"; "high"]%string.
Proof.
  apply (X24_button_ctor_does_not_validate 12%positive 0 "mode"%string 7
           ["off"; "low"; "mid"; "high"]%string 4 4 None 9);
    simpl; lia.
Defined.

End ButtonCoverage.

(** ** LCDMenuParameter: [incValue], [registerSetValueCallback] *)

Section ParameterCoverage.

Import MenuParameter.

(** X5. [incValue(steps)] on a numeric parameter stores
    [_value + _inc * steps] (computed in single precision) through
    [setValue]: it calls the callback at most once, only if the sum
    differs from the old value, and the event then carries the value now
    stored; the name, the id, the increment and the callback are
    untouched. *)
Theorem X5_parameter_incValue_through_setValue this now nm id cur inc df cb steps :
  exists p' t,
    incValue this now steps (ctor nm id cur inc df cb) = Some (p', t)
    /\ (length (callback_calls t) <= 1)%nat
    /\ (forall f e,
          In (f, e) (callback_calls t) ->
          cb = Some f
          /\ value e = float_add cur (float_mul inc steps)
          /\ _value p' = Init (value e)
          /\ float_ne cur (value e) = true
          /\ source e = id /\ time e = now /\ object e = this)
    /\ (float_ne cur (float_add cur (float_mul inc steps)) = false ->
        p' = ctor nm id cur inc df cb /\ t = [])
    /\ (float_ne cur (float_add cur (float_mul inc steps)) = true ->
        p' = ctor nm id (float_add cur (float_mul inc steps)) inc df cb).
Proof.
  unfold incValue, setValue, ctor, init, default_ctor; simpl.
  destruct (float_ne cur (float_add cur (float_mul inc steps))) eqn:Hne; simpl.
  - destruct cb as [f |]; do 2 eexists; (split; [reflexivity |]); simpl.
    + split; [lia |]. split.
      * intros f' e [Hin | []]. injection Hin as <- <-. simpl. auto 10.
      * split; [discriminate | reflexivity].
    + split; [lia |]. split; [intros f e [] |].
      split; [discriminate | reflexivity].
  - do 2 eexists. split; [reflexivity |]. simpl.
    split; [lia |]. split; [intros f e [] |].
    split; [auto | discriminate].
Qed.

(** X6. [registerSetValueCallback] only replaces the callback: it calls
    nothing itself, and the next [setValue] that changes the value calls
    the callback registered last, once, or nothing at all if that was
    NULL. The callback held before, even an unwritten one, plays no
    part. *)
Theorem X6_parameter_register_replaces_callback this now p cur id v newCallback :
  _value p = Init cur ->
  _id p = Init id ->
  float_ne cur v = true ->
  _value (registerSetValueCallback newCallback p) = Init cur
  /\ _name (registerSetValueCallback newCallback p) = _name p
  /\ _inc (registerSetValueCallback newCallback p) = _inc p
  /\ setValue this now v (registerSetValueCallback newCallback p)
     = Some (registerSetValueCallback newCallback (set_value v p),
             match newCallback with
             | Some f => [Invoke f (mkEvent id now v this)]
             | None => []
             end).
Proof.
  intros Hv Hid Hne. split; [exact Hv |]. split; [reflexivity |].
  split; [reflexivity |].
  unfold setValue, registerSetValueCallback. cbn [_value _setValueCallback _id].
  rewrite Hv. cbn [read]. rewrite Hne.
  cbn [set_value _setValueCallback _id read _name _value _inc _display_float].
  rewrite Hid. cbn [read]. destruct newCallback; reflexivity.
Qed.

Lemma X6_parameter_register_replaces_callback_witness :
  _value (registerSetValueCallback None gain) = Init (float_of_int 3)
  /\ _name (registerSetValueCallback None gain) = _name gain
  /\ _inc (registerSetValueCallback None gain) = _inc gain
  /\ setValue 11%positive 0 (float_of_int 4) (registerSetValueCallback None gain)
     = Some (registerSetValueCallback None (set_value (float_of_int 4) gain), []).
Proof.
  apply (X6_parameter_register_replaces_callback 11%positive 0 gain
           (float_of_int 3) 1 (float_of_int 4) None);
    reflexivity.
Defined.

End ParameterCoverage.

(** ** LCDMenuSection: construction, capacity, cursor and allocation *)

Section SectionCoverage.

Import MenuSection.

Lemma slots_holding_lookup (ps : list loc) (i : nat) (p : loc) :
  ps !! i = Some p -> slots_holding ps !! i = Some (Init p).
Proof.
  intros H. unfold slots_holding.
  rewrite lookup_app_l by (rewrite length_fmap; eapply lookup_lt_Some, H).
  rewrite list_lookup_fmap, H. reflexivity.
Qed.

(** [k] calls of [nextItem] move the cursor [k] places round the section. *)
Lemma navigate_next_index (k : nat) :
  forall s : LCDMenuSection,
    0 < _num_params s <= INT_MAX ->
    0 <= _index s < _num_params s ->
    navigate (replicate k NavNext) s
    = mkSection (_params s) (_num_params s)
                ((_index s + Z.of_nat k) mod _num_params s).
Proof.
  induction k as [| k IH]; intros s Hn Hi.
  - simpl. rewrite Z.add_0_r, Z.mod_small by lia. destruct s; reflexivity.
  - simpl replicate. simpl navigate.
    destruct (nextItem_index s Hn Hi) as (Hidx & Hnum & Hpar).
    rewrite IH.
    + rewrite Hidx, Hnum, Hpar. f_equal.
      rewrite Zplus_mod_idemp_l. f_equal. lia.
    + rewrite Hnum. exact Hn.
    + rewrite Hidx, Hnum. apply Z.mod_pos_bound. lia.
Qed.

(** X7. Parameters are found in the order they were added: in the
    section built from the constructor by adding [ps], after [k] calls of
    [nextItem] the current parameter is the [k]-th of the (at most eight)
    parameters kept, counting cyclically, and asking for it allocates
    nothing. *)
Theorem X7_section_kth_parameter_after_k_next (ps : list loc) (k : nat)
    (objs : gmap loc Object) :
  ps <> [] ->
  exists s p,
    add_all ps ctor = Some s
    /\ take 8 ps !! (k mod length (take 8 ps))%nat = Some p
    /\ getCurrentParameter (navigate (replicate k NavNext) s) objs = Some (p, objs).
Proof.
  intros Hne. rewrite add_all_ctor.
  set (qs := take 8 ps).
  assert (Hlen : (0 < length qs <= 8)%nat).
  { subst qs. rewrite length_take. destruct ps; [contradiction | cbn [length]; lia]. }
  assert (Hk : (k mod length qs < length qs)%nat) by (apply Nat.mod_upper_bound; lia).
  destruct (lookup_lt_is_Some_2 qs _ Hk) as [p Hp].
  eexists _, p. split; [reflexivity |]. split; [exact Hp |].
  rewrite navigate_next_index
    by (unfold INT_MAX; cbn [_num_params _index]; lia).
  unfold getCurrentParameter. cbn [_index _num_params _params].
  rewrite Z.add_0_l, <- Nat2Z.inj_mod, Nat2Z.id.
  rewrite (slots_holding_lookup qs _ p Hp). cbn [read].
  rewrite Z.geb_leb.
  destruct (Z.leb_spec 0 (Z.of_nat (k mod length qs))); [| lia].
  destruct (Z.ltb_spec (Z.of_nat (k mod length qs)) (Z.of_nat (length qs)));
    [reflexivity | lia].
Qed.

Lemma X7_section_kth_parameter_after_k_next_witness :
  exists s p,
    add_all [11; 12; 13]%positive ctor = Some s
    /\ take 8 [11; 12; 13]%positive
         !! (4 mod length (take 8 [11; 12; 13]%positive))%nat = Some p
    /\ getCurrentParameter (navigate (replicate 4 NavNext) s) ∅ = Some (p, ∅).
Proof.
  apply (X7_section_kth_parameter_after_k_next [11; 12; 13]%positive 4 ∅).
  discriminate.
Defined.

Lemma prevItem_nextItem_inverse (s : LCDMenuSection) :
  0 < _num_params s <= INT_MAX ->
  0 <= _index s < _num_params s ->
  prevItem (nextItem s) = s /\ nextItem (prevItem s) = s.
Proof.
  unfold INT_MAX. intros Hn Hi. destruct s as [ps n i]. simpl in *.
  unfold nextItem, prevItem. cbn [_index _num_params _params].
  rewrite (int_sub_id n 1) by int_range. split.
  - destruct (Z.ltb_spec i (n - 1)) as [Hlt | Hge]; cbn [_index _num_params _params].
    + rewrite (int_add_id i 1) by int_range.
      destruct (Z.gtb_spec (i + 1) 0); [| lia].
      rewrite int_sub_id by int_range. f_equal. lia.
    + rewrite (int_sub_id n 1) by int_range. simpl. f_equal. lia.
  - destruct (Z.gtb_spec i 0) as [Hgt | Hle]; cbn [_index _num_params _params].
    + rewrite (int_sub_id i 1), (int_sub_id n 1) by int_range.
      destruct (Z.ltb_spec (i - 1) (n - 1)); [| lia].
      rewrite int_add_id by int_range. f_equal. lia.
    + rewrite !(int_sub_id n 1) by int_range.
      rewrite Z.ltb_irrefl. f_equal. lia.
Qed.

(** X8. On a section holding at least one parameter, with the cursor on
    one of them, [nextItem] and [prevItem] undo each other whichever
    comes first, wrap included. *)
Theorem X8_section_next_prev_inverse (s : LCDMenuSection) :
  0 < _num_params s <= INT_MAX ->
  0 <= _index s < _num_params s ->
  prevItem (nextItem s) = s /\ nextItem (prevItem s) = s.
Proof. exact (prevItem_nextItem_inverse s). Qed.

Lemma X8_section_next_prev_inverse_witness :
  prevItem (nextItem (mkSection (slots_holding [11; 12; 13]%positive) 3 2))
  = mkSection (slots_holding [11; 12; 13]%positive) 3 2
  /\ nextItem (prevItem (mkSection (slots_holding [11; 12; 13]%positive) 3 2))
     = mkSection (slots_holding [11; 12; 13]%positive) 3 2.
Proof.
  apply (X8_section_next_prev_inverse
           (mkSection (slots_holding [11; 12; 13]%positive) 3 2));
    unfold INT_MAX; simpl; lia.
Defined.

(** X9. On the empty section [nextItem] keeps the cursor at 0, but
    [prevItem] moves it to [-1]. A parameter added after that is not the
    current one: [getCurrentParameter] still hands out a fresh
    placeholder, until one [nextItem] brings the cursor back to 0. *)
Theorem X9_section_prevItem_on_empty (p : loc) (objs : gmap loc Object) :
  _index (nextItem ctor) = 0
  /\ _index (prevItem ctor) = -1
  /\ exists s1,
       addParameter p (prevItem ctor) = Some s1
       /\ _num_params s1 = 1
       /\ _index s1 = -1
       /\ getCurrentParameter s1 objs
          = Some (fresh (dom objs),
                  <[fresh (dom objs) := ObjParameter MenuParameter.default_ctor]> objs)
       /\ objs !! fresh (dom objs) = None
       /\ getCurrentParameter (nextItem s1) objs = Some (p, objs).
Proof.
  split; [reflexivity |]. split; [reflexivity |].
  eexists. split; [reflexivity |]. split; [reflexivity |].
  split; [reflexivity |]. split; [reflexivity |].
  split; [apply not_elem_of_dom, is_fresh | reflexivity].
Qed.

(** X10. However many parameters are added to a constructed section, it
    holds the first eight of them, in order, in its first slots, counts
    [min 8 (length ps)], never grows its array, and keeps the cursor at
    0; parameters from the ninth on leave no trace. *)
Theorem X10_section_keeps_first_eight (ps : list loc) :
  exists s,
    add_all ps ctor = Some s
    /\ _num_params s = Z.of_nat (Nat.min 8 (length ps))
    /\ _params s = slots_holding (take 8 ps)
    /\ length (_params s) = 8%nat
    /\ _index s = 0
    /\ (forall i p, (i < 8)%nat -> ps !! i = Some p -> _params s !! i = Some (Init p))
    /\ (forall i, (Nat.min 8 (length ps) <= i)%nat ->
                  _params s !! i = Some Indet \/ _params s !! i = None).
Proof.
  eexists. split; [apply add_all_ctor |]. cbn [_num_params _params _index].
  split; [rewrite length_take; reflexivity |]. split; [reflexivity |].
  split; [apply length_slots_holding; rewrite length_take; lia |].
  split; [reflexivity |]. split.
  - intros i p Hi Hp. apply slots_holding_lookup.
    rewrite lookup_take_lt by exact Hi. exact Hp.
  - intros i Hi. unfold slots_holding.
    rewrite lookup_app_r by (rewrite length_fmap, length_take; exact Hi).
    rewrite length_fmap, length_take.
    destruct (replicate (8 - Nat.min 8 (length ps)) (@Indet loc)
                !! (i - Nat.min 8 (length ps))%nat) as [c |] eqn:Hc;
      [left | right; reflexivity].
    apply lookup_replicate in Hc. destruct Hc as [-> _]. reflexivity.
Qed.

(** X11. [getCurrentParameter] with the cursor outside [[0, count)]
    allocates on every call: the address returned was not in use, the
    store gains exactly that one object, every object already there is
    untouched, and a second call returns yet another address. Nothing
    ever frees these placeholders. *)
Theorem X11_section_placeholder_allocated_per_call (s : LCDMenuSection)
    (objs : gmap loc Object) :
  ~ 0 <= _index s < _num_params s ->
  exists p objs1 p2 objs2,
    getCurrentParameter s objs = Some (p, objs1)
    /\ objs !! p = None
    /\ objs1 = <[p := ObjParameter MenuParameter.default_ctor]> objs
    /\ size objs1 = S (size objs)
    /\ (forall q o, objs !! q = Some o -> objs1 !! q = Some o)
    /\ getCurrentParameter s objs1 = Some (p2, objs2)
    /\ p2 <> p
    /\ size objs2 = S (S (size objs)).
Proof.
  intros Hout.
  assert (Hcond : (_index s >=? 0) && (_index s <? _num_params s) = false)
    by (apply valid_state_false; exact Hout).
  assert (Hget : forall m : gmap loc Object,
             getCurrentParameter s m
             = Some (fresh (dom m),
                     <[fresh (dom m) := ObjParameter MenuParameter.default_ctor]> m)).
  { intros m. unfold getCurrentParameter. rewrite Hcond. reflexivity. }
  assert (Hfresh : forall m : gmap loc Object, m !! fresh (dom m) = None)
    by (intros m; apply not_elem_of_dom, is_fresh).
  do 4 eexists. split; [apply Hget |]. split; [apply Hfresh |].
  split; [reflexivity |]. split; [apply map_size_insert_None, Hfresh |].
  split.
  - intros q o Hq. rewrite lookup_insert_ne; [exact Hq |].
    intros <-. rewrite Hfresh in Hq. discriminate.
  - split; [apply Hget |]. split.
    + intros Heq.
      pose proof (Hfresh (<[fresh (dom objs) :=
                              ObjParameter MenuParameter.default_ctor]> objs)) as Hf.
      rewrite Heq, lookup_insert_eq in Hf. discriminate.
    + rewrite map_size_insert_None by apply Hfresh.
      rewrite map_size_insert_None by apply Hfresh. reflexivity.
Qed.

Lemma X11_section_placeholder_allocated_per_call_witness :
  exists p objs1 p2 objs2,
    getCurrentParameter ctor ∅ = Some (p, objs1)
    /\ (∅ : gmap loc Object) !! p = None
    /\ objs1 = <[p := ObjParameter MenuParameter.default_ctor]> ∅
    /\ size objs1 = S (size (∅ : gmap loc Object))
    /\ (forall q o, (∅ : gmap loc Object) !! q = Some o -> objs1 !! q = Some o)
    /\ getCurrentParameter ctor objs1 = Some (p2, objs2)
    /\ p2 <> p
    /\ size objs2 = S (S (size (∅ : gmap loc Object))).
Proof.
  apply (X11_section_placeholder_allocated_per_call ctor ∅).
  simpl. lia.
Defined.

End SectionCoverage.

(** ** LCDMenu: navigation, value changes, sleep and rendering *)

Section MenuCoverage.

Import Menu.

(** Splits a defined [bind] in hypothesis [H], keeping the continuation. *)
Ltac bind_inv H :=
  apply bind_Some in H; destruct H as (? & ? & ? & ? & _ & H & _).

(** [nextItem] and [prevItem] of the menu move the cursor of the current
    section in the store and then call [setDirty(true)]. *)
Lemma menu_nextItem_eq (m : LCDMenu) (w : World) l s :
  _cur_section m = Some l ->
  sections w !! l = Some s ->
  nextItem m w = setDirty true 0 m (with_section l (MenuSection.nextItem s) w).
Proof.
  intros Hcur Hsec. unfold nextItem, bind, load_section, store_section.
  rewrite Hcur, Hsec. fold (with_section l (MenuSection.nextItem s) w).
  destruct (setDirty true 0 m _) as [[[m' w'] t] |]; reflexivity.
Qed.

Lemma menu_prevItem_eq (m : LCDMenu) (w : World) l s :
  _cur_section m = Some l ->
  sections w !! l = Some s ->
  prevItem m w = setDirty true 0 m (with_section l (MenuSection.prevItem s) w).
Proof.
  intros Hcur Hsec. unfold prevItem, bind, load_section, store_section.
  rewrite Hcur, Hsec. fold (with_section l (MenuSection.prevItem s) w).
  destruct (setDirty true 0 m _) as [[[m' w'] t] |]; reflexivity.
Qed.

(** X12. A menu without a section, as the constructor leaves it, cannot
    be used yet: [nextItem], [prevItem] and [incCurrentParam] dereference
    the null [_cur_section], and so does [printMenu] as soon as anything
    is marked for redraw, which the constructor itself does. *)
Theorem X12_menu_without_section_undefined (m : LCDMenu) (w : World) :
  _cur_section m = None ->
  nextItem m w = None
  /\ prevItem m w = None
  /\ (forall inc, incCurrentParam inc m w = None)
  /\ (_dirty m = true -> printMenu m w = None).
Proof.
  intros Hcur. destruct m as [idx d [d0 d1] asleep timeout last root cur].
  simpl in Hcur. subst cur. repeat split.
  intros Hd. simpl in Hd. subst d. destruct w as [ss os c].
  destruct d0, d1; reflexivity.
Qed.

Lemma X12_menu_without_section_undefined_witness :
  nextItem (mkMenu Indet true (true, true) false 30000 30 None None) gain_world = None
  /\ prevItem (mkMenu Indet true (true, true) false 30000 30 None None) gain_world
     = None
  /\ (forall inc,
        incCurrentParam inc (mkMenu Indet true (true, true) false 30000 30 None None)
                        gain_world = None)
  /\ (_dirty (mkMenu Indet true (true, true) false 30000 30 None None) = true ->
      printMenu (mkMenu Indet true (true, true) false 30000 30 None None) gain_world
      = None).
Proof.
  apply (X12_menu_without_section_undefined
           (mkMenu Indet true (true, true) false 30000 30 None None) gain_world).
  reflexivity.
Defined.

(** X13. [nextItem] of the menu moves the cursor of the current section
    and of no other, leaves every parameter object alone, and marks both
    rows for redraw. On a section with the cursor on one of its
    parameters a following [prevItem] puts the store back exactly as it
    was. *)
Theorem X13_menu_nextItem_then_prevItem (m : LCDMenu) (w : World) l s :
  _cur_section m = Some l ->
  sections w !! l = Some s ->
  0 < MenuSection._num_params s <= INT_MAX ->
  0 <= MenuSection._index s < MenuSection._num_params s ->
  exists m1 w1 t1 m2 w2 t2,
    nextItem m w = Some (m1, w1, t1)
    /\ sections w1 = <[l := MenuSection.nextItem s]> (sections w)
    /\ (forall l', l' <> l -> sections w1 !! l' = sections w !! l')
    /\ objects w1 = objects w
    /\ _dirty m1 = true /\ _dirt m1 = (true, true)
    /\ _cur_section m1 = Some l
    /\ prevItem m1 w1 = Some (m2, w2, t2)
    /\ sections w2 = sections w
    /\ objects w2 = objects w
    /\ t2 = []
    /\ _dirt m2 = (true, true).
Proof.
  intros Hcur Hsec Hn Hi.
  destruct (prevItem_nextItem_inverse s Hn Hi) as [Hpn _].
  do 6 eexists.
  split; [rewrite (menu_nextItem_eq m w l s Hcur Hsec); apply setDirty_eq |].
  split; [unfold wake_world; destruct (_is_asleep m); reflexivity |].
  split.
  { intros l' Hl'. unfold wake_world.
    destruct (_is_asleep m); simpl; apply lookup_insert_ne; congruence. }
  split; [unfold wake_world; destruct (_is_asleep m); reflexivity |].
  split; [reflexivity |]. split; [reflexivity |]. split; [exact Hcur |].
  split.
  { erewrite menu_prevItem_eq; [apply setDirty_eq | exact Hcur |].
    unfold wake_world. destruct (_is_asleep m); simpl; apply lookup_insert_eq. }
  rewrite Hpn. cbn [_is_asleep wake_world wake_trace with_section sections objects].
  split.
  { unfold wake_world. destruct (_is_asleep m); simpl;
      rewrite insert_insert_eq; apply insert_id; exact Hsec. }
  split; [unfold wake_world; destruct (_is_asleep m); reflexivity |].
  split; reflexivity.
Qed.

Lemma X13_menu_nextItem_then_prevItem_witness :
  exists m1 w1 t1 m2 w2 t2,
    nextItem gain_menu gain_world = Some (m1, w1, t1)
    /\ sections w1
       = <[20%positive :=
             MenuSection.nextItem
               (MenuSection.mkSection (slots_holding [11%positive]) 1 0)]>
           (sections gain_world)
    /\ (forall l', l' <> 20%positive -> sections w1 !! l' = sections gain_world !! l')
    /\ objects w1 = objects gain_world
    /\ _dirty m1 = true /\ _dirt m1 = (true, true)
    /\ _cur_section m1 = Some 20%positive
    /\ prevItem m1 w1 = Some (m2, w2, t2)
    /\ sections w2 = sections gain_world
    /\ objects w2 = objects gain_world
    /\ t2 = []
    /\ _dirt m2 = (true, true).
Proof.
  apply (X13_menu_nextItem_then_prevItem gain_menu gain_world 20%positive
           (MenuSection.mkSection (slots_holding [11%positive]) 1 0));
    first [reflexivity | unfold INT_MAX; simpl; lia].
Defined.

(** What a defined plain action leaves: the menu is awake, the time of
    last activity is the clock just read, and the trace is what waking
    took. *)
Lemma plain_action_inv (op : Op) (m m' : LCDMenu) (w w' : World) (t : list Effect) :
  plain_action op = true ->
  run op m w = Some (m', w', t) ->
  _is_asleep m' = false
  /\ _last_activity_time m' = ulong_wrap (clock w')
  /\ t = wake_trace m
  /\ objects w' = objects w
  /\ clock w' = clock w + (if _is_asleep m then 10 else 0).
Proof.
  assert (Hset : forall d row m0 w0,
             _is_asleep m0 = _is_asleep m ->
             objects w0 = objects w -> clock w0 = clock w ->
             setDirty d row m0 w0 = Some (m', w', t) ->
             _is_asleep m' = false
             /\ _last_activity_time m' = ulong_wrap (clock w')
             /\ t = wake_trace m
             /\ objects w' = objects w
             /\ clock w' = clock w + (if _is_asleep m then 10 else 0)).
  { intros d row m0 w0 Ha Ho Hc H. rewrite setDirty_eq in H.
    injection H as <- <- <-. unfold wake_trace, wake_world. rewrite Ha.
    destruct (_is_asleep m); simpl; rewrite ?Ho, ?Hc; repeat split;
      first [reflexivity | lia]. }
  intros Hop H. destruct op; try discriminate Hop; cbn [run] in H.
  - eapply Hset; [| | | exact H]; reflexivity.
  - destruct (_cur_section m) as [l |] eqn:Hcur;
      [| unfold nextItem, bind, load_section in H; rewrite Hcur in H; discriminate].
    destruct (sections w !! l) as [s |] eqn:Hsec;
      [| unfold nextItem, bind, load_section in H; rewrite Hcur, Hsec in H;
         discriminate].
    rewrite (menu_nextItem_eq m w l s Hcur Hsec) in H.
    eapply Hset; [| | | exact H]; reflexivity.
  - destruct (_cur_section m) as [l |] eqn:Hcur;
      [| unfold prevItem, bind, load_section in H; rewrite Hcur in H; discriminate].
    destruct (sections w !! l) as [s |] eqn:Hsec;
      [| unfold prevItem, bind, load_section in H; rewrite Hcur, Hsec in H;
         discriminate].
    rewrite (menu_prevItem_eq m w l s Hcur Hsec) in H.
    eapply Hset; [| | | exact H]; reflexivity.
  - unfold addSection in H.
    eapply Hset; [| | | exact H]; try reflexivity.
    destruct (_root (set_cur_section section m)); reflexivity.
  - rewrite stayAwake_eq in H. injection H as <- <- <-.
    unfold wake_trace, wake_world.
    destruct (_is_asleep m); simpl; repeat split; first [reflexivity | lia].
Qed.

(** X14. [setDirty], [nextItem], [prevItem], [addSection] and
    [stayAwake] all count as activity and write to the display only to
    wake it: a defined call leaves the menu awake with the time of last
    activity set to the clock; on an awake menu it sends nothing and takes
    no time, on a sleeping one it sends the backlight-on command, once,
    and waits 10 ms. *)
Theorem X14_menu_plain_actions_wake (op : Op) (m m' : LCDMenu) (w w' : World)
    (t : list Effect) :
  plain_action op = true ->
  run op m w = Some (m', w', t) ->
  _is_asleep m' = false
  /\ _last_activity_time m' = ulong_wrap (clock w')
  /\ t = (if _is_asleep m then [SerialByte 124; SerialByte 157; DelayMs 10] else [])
  /\ clock w' = clock w + (if _is_asleep m then 10 else 0)
  /\ objects w' = objects w.
Proof.
  intros Hop H.
  destruct (plain_action_inv op m m' w w' t Hop H) as (Ha & Hl & Ht & Ho & Hc).
  repeat split; assumption.
Qed.

Lemma X14_menu_plain_actions_wake_witness :
  _is_asleep gain_menu = false
  /\ _last_activity_time gain_menu = ulong_wrap (clock gain_world)
  /\ [] = (if _is_asleep idle_menu
           then [SerialByte 124; SerialByte 157; DelayMs 10] else [])
  /\ clock gain_world = clock gain_world + (if _is_asleep idle_menu then 10 else 0)
  /\ objects gain_world = objects gain_world.
Proof.
  apply (X14_menu_plain_actions_wake (OpAddSection (Some 20%positive) None)
           idle_menu gain_menu gain_world gain_world []);
    reflexivity.
Defined.

(** X15. Going to sleep is not remembered by the timeout check: on a
    menu with nothing to redraw, every [printMenu] call made while more
    than the timeout has gone by since the last activity sends the
    backlight-off command and waits 10 ms, also when the menu is asleep
    already. [printMenu] never moves the time of last activity. *)
Theorem X15_printMenu_sleeps_on_every_idle_call (m : LCDMenu) (w1 w2 : World) :
  _dirty m = false ->
  ulong_of_int (_sleep_timeout m)
  < ulong_sub (ulong_wrap (clock w1)) (_last_activity_time m) ->
  ulong_of_int (_sleep_timeout m)
  < ulong_sub (ulong_wrap (clock w2)) (_last_activity_time m) ->
  exists m1,
    printMenu m w1
    = Some (m1, mkWorld (sections w1) (objects w1) (clock w1 + 10),
            [SerialByte 124; SerialByte 128; DelayMs 10])
    /\ _is_asleep m1 = true
    /\ _last_activity_time m1 = _last_activity_time m
    /\ printMenu m1 w2
       = Some (m1, mkWorld (sections w2) (objects w2) (clock w2 + 10),
               [SerialByte 124; SerialByte 128; DelayMs 10]).
Proof.
  intros Hclean H1 H2. exists (set_is_asleep true m).
  rewrite !printMenu_clean by exact Hclean.
  cbn [set_is_asleep _last_activity_time _sleep_timeout _is_asleep].
  destruct (Z.gtb_spec (ulong_sub (ulong_wrap (clock w1)) (_last_activity_time m))
                       (ulong_of_int (_sleep_timeout m))); [| lia].
  destruct (Z.gtb_spec (ulong_sub (ulong_wrap (clock w2)) (_last_activity_time m))
                       (ulong_of_int (_sleep_timeout m))); [| lia].
  repeat split.
Qed.

Lemma X15_printMenu_sleeps_on_every_idle_call_witness :
  exists m1,
    printMenu idle_menu (mkWorld ∅ ∅ 30001)
    = Some (m1, mkWorld ∅ ∅ (30001 + 10),
            [SerialByte 124; SerialByte 128; DelayMs 10])
    /\ _is_asleep m1 = true
    /\ _last_activity_time m1 = _last_activity_time idle_menu
    /\ printMenu m1 (mkWorld ∅ ∅ 30100)
       = Some (m1, mkWorld ∅ ∅ (30100 + 10),
               [SerialByte 124; SerialByte 128; DelayMs 10]).
Proof.
  apply (X15_printMenu_sleeps_on_every_idle_call idle_menu
           (mkWorld ∅ ∅ 30001) (mkWorld ∅ ∅ 30100));
    first [reflexivity | vm_compute; reflexivity].
Defined.

(** X16. [printMenu] on a menu marked for redraw writes exactly the rows
    whose flag is set, row 1 with the name and row 2 with the value, and
    clears the screen only when both are set. It then holds no flag, and
    it changes neither the store, nor the sleep state, nor the time of
    last activity: a redraw does not count as activity. *)
Theorem X16_printMenu_redraws_flagged_rows (m : LCDMenu) (w : World) l s p o name row2 :
  _dirty m = true ->
  _cur_section m = Some l ->
  sections w !! l = Some s ->
  0 <= MenuSection._index s < MenuSection._num_params s ->
  MenuSection._params s !! Z.to_nat (MenuSection._index s) = Some (Init p) ->
  objects w !! p = Some o ->
  MenuParameter.getName (base_of o) = Some name ->
  row_two o = Some row2 ->
  exists m' w' t,
    printMenu m w = Some (m', w', t)
    /\ _dirty m' = false /\ _dirt m' = (false, false)
    /\ count_clear t = (if fst (_dirt m) && snd (_dirt m) then 1%nat else 0%nat)
    /\ row_writes 0 t
       = (if fst (_dirt m) then [(1, SerialText name)] else [])
         ++ (if snd (_dirt m) then [(2, row2)] else [])
    /\ sections w' = sections w /\ objects w' = objects w
    /\ _is_asleep m' = _is_asleep m
    /\ _last_activity_time m' = _last_activity_time m.
Proof.
  intros Hdirty Hcur Hsec Hidx Hslot Hobj Hname Hrow.
  assert (Hshape : (exists v, row2 = SerialFloat v) \/ (exists v, row2 = SerialText v)).
  { unfold row_two in Hrow. destruct (isFloatValue o).
    - destruct (MenuParameter.getValue (base_of o)); simpl in Hrow;
        [injection Hrow as <-; eauto | discriminate].
    - destruct (getDisplayValue o); simpl in Hrow;
        [injection Hrow as <-; eauto | discriminate]. }
  do 3 eexists.
  split; [apply (printMenu_dirty m w l s p o name row2); assumption |].
  cbn [_dirty _dirt _is_asleep _last_activity_time sections objects].
  split; [reflexivity |]. split; [reflexivity |].
  destruct (_dirt m) as [d0 d1]. cbn [fst snd].
  destruct Hshape as [[v ->] | [v ->]]; destruct d0, d1; repeat split.
Qed.

Lemma X16_printMenu_redraws_flagged_rows_witness :
  exists m' w' t,
    printMenu (mkMenu Indet true (false, true) false 30000 0
                      (Some 20%positive) (Some 20%positive)) gain_world
    = Some (m', w', t)
    /\ _dirty m' = false /\ _dirt m' = (false, false)
    /\ count_clear t = 0%nat
    /\ row_writes 0 t = [] ++ [(2, SerialFloat (float_of_int 3))]
    /\ sections w' = sections gain_world /\ objects w' = objects gain_world
    /\ _is_asleep m' = false
    /\ _last_activity_time m' = 0.
Proof.
  apply (X16_printMenu_redraws_flagged_rows
           (mkMenu Indet true (false, true) false 30000 0
                   (Some 20%positive) (Some 20%positive))
           gain_world 20%positive
           (MenuSection.mkSection (slots_holding [11%positive]) 1 0)
           11%positive (ObjParameter gain) "gain" (SerialFloat (float_of_int 3)));
    first [reflexivity | simpl; lia].
Defined.

(** [incCurrentParam] on a section with the cursor on a parameter: the
    base-class [incValue] on that object, the object written back, the
    callback trace, then [setDirty(true, 2)]. *)
Lemma incCurrentParam_eq (inc : float) (m : LCDMenu) (w : World) l s p o b' tr :
  _cur_section m = Some l ->
  sections w !! l = Some s ->
  0 <= MenuSection._index s < MenuSection._num_params s ->
  MenuSection._params s !! Z.to_nat (MenuSection._index s) = Some (Init p) ->
  objects w !! p = Some o ->
  MenuParameter.incValue p (ulong_wrap (clock w)) inc (base_of o) = Some (b', tr) ->
  incCurrentParam inc m w
  = Some (mkMenu (_index m) true (dirt_after true 2 (_dirt m)) false
                 (_sleep_timeout m)
                 (ulong_wrap (clock (wake_world m w)))
                 (_root m) (_cur_section m),
          wake_world m (with_object p (with_base o b') w),
          tr ++ wake_trace m).
Proof.
  intros Hcur Hsec Hidx Hslot Hobj Hinc. unfold incCurrentParam.
  rewrite Hcur.
  erewrite bind_step
    by (apply (section_getCurrentParameter_in_range w l s p); assumption).
  unfold bind at 1. unfold load_object at 1. rewrite Hobj.
  unfold bind at 1. unfold millis at 1.
  unfold bind at 1. unfold of_option at 1. rewrite Hinc.
  unfold bind at 1. unfold store_object at 1.
  unfold bind at 1. unfold emit at 1.
  cbn [fst snd]. fold (with_object p (with_base o b') w).
  rewrite setDirty_eq. rewrite Hcur.
  replace (clock (wake_world m (with_object p (with_base o b') w)))
    with (clock (wake_world m w))
    by (unfold wake_world; destruct (_is_asleep m); reflexivity).
  reflexivity.
Qed.

Lemma incValue_ctor_eq this now nm id cur inc df cb steps :
  MenuParameter.incValue this now steps (MenuParameter.ctor nm id cur inc df cb)
  = Some (if float_ne cur (float_add cur (float_mul inc steps))
          then MenuParameter.ctor nm id (float_add cur (float_mul inc steps)) inc df cb
          else MenuParameter.ctor nm id cur inc df cb,
          if float_ne cur (float_add cur (float_mul inc steps))
          then match cb with
               | Some f =>
                   [Invoke f (mkEvent id now (float_add cur (float_mul inc steps)) this)]
               | None => []
               end
          else []).
Proof.
  unfold MenuParameter.incValue, MenuParameter.setValue, MenuParameter.ctor,
    MenuParameter.init, MenuParameter.default_ctor; simpl.
  destruct (float_ne cur (float_add cur (float_mul inc steps))); simpl;
    [destruct cb |]; reflexivity.
Qed.

(** X17. [incCurrentParam(steps)] with the cursor on a numeric parameter
    adds [_inc * steps] to that parameter in the store, calls its
    callback if the value changed, touches no section and no other
    object, and marks row 2 only. If row 1 was clean, the following
    [printMenu] rewrites just the value row, without clearing the
    screen, and shows the value now stored. *)
Theorem X17_incCurrentParam_numeric_then_printMenu
    (steps : float) (m : LCDMenu) (w : World) l s p nm id cur inc df cb :
  _cur_section m = Some l ->
  sections w !! l = Some s ->
  0 <= MenuSection._index s < MenuSection._num_params s ->
  MenuSection._params s !! Z.to_nat (MenuSection._index s) = Some (Init p) ->
  objects w !! p = Some (ObjParameter (MenuParameter.ctor nm id cur inc df cb)) ->
  fst (_dirt m) = false ->
  exists stored m1 w1 t1 m2 w2,
    stored = (if float_ne cur (float_add cur (float_mul inc steps))
              then float_add cur (float_mul inc steps) else cur)
    /\ incCurrentParam steps m w = Some (m1, w1, t1)
    /\ objects w1
       = <[p := ObjParameter (MenuParameter.ctor nm id stored inc df cb)]> (objects w)
    /\ sections w1 = sections w
    /\ _dirty m1 = true /\ _dirt m1 = (false, true)
    /\ callback_calls t1
       = (if float_ne cur (float_add cur (float_mul inc steps))
          then match cb with
               | Some f => [(f, mkEvent id (ulong_wrap (clock w)) stored p)]
               | None => []
               end
          else [])
    /\ printMenu m1 w1
       = Some (m2, w2, [SerialByte 254; SerialByte 192; DelayMs 10; SerialFloat stored])
    /\ _dirty m2 = false /\ _dirt m2 = (false, false).
Proof.
  intros Hcur Hsec Hidx Hslot Hobj Hrow1.
  pose proof (incCurrentParam_eq steps m w l s p _ _ _ Hcur Hsec Hidx Hslot Hobj
                (incValue_ctor_eq p (ulong_wrap (clock w)) nm id cur inc df cb steps))
    as Hinc.
  set (ne := float_ne cur (float_add cur (float_mul inc steps))) in *.
  set (stored := if ne then float_add cur (float_mul inc steps) else cur).
  assert (Hwb : with_base (ObjParameter (MenuParameter.ctor nm id cur inc df cb))
                  (if ne
                   then MenuParameter.ctor nm id (float_add cur (float_mul inc steps))
                                           inc df cb
                   else MenuParameter.ctor nm id cur inc df cb)
                = ObjParameter (MenuParameter.ctor nm id stored inc df cb)).
  { subst stored. destruct ne; reflexivity. }
  rewrite Hwb in Hinc.
  assert (Hdirt : dirt_after true 2 (_dirt m) = (false, true)).
  { destruct (_dirt m) as [d0 d1]. simpl in Hrow1. subst d0. reflexivity. }
  rewrite Hdirt in Hinc.
  exists stored. do 5 eexists. split; [reflexivity |].
  split; [exact Hinc |].
  split; [unfold wake_world; destruct (_is_asleep m); reflexivity |].
  split; [unfold wake_world; destruct (_is_asleep m); reflexivity |].
  split; [reflexivity |]. split; [reflexivity |].
  split.
  { unfold callback_calls. rewrite omap_app.
    replace (omap _ (wake_trace m)) with (@nil (fnptr * Event))
      by (unfold wake_trace; destruct (_is_asleep m); reflexivity).
    rewrite app_nil_r. subst stored. destruct ne; [destruct cb |]; reflexivity. }
  split.
  { erewrite (printMenu_dirty _ _ l s p
                (ObjParameter (MenuParameter.ctor nm id stored inc df cb))
                nm (SerialFloat stored));
      try reflexivity; try assumption.
    - unfold wake_world. destruct (_is_asleep m); exact Hsec.
    - unfold wake_world. destruct (_is_asleep m); simpl; apply lookup_insert_eq. }
  split; reflexivity.
Qed.

Lemma X17_incCurrentParam_numeric_then_printMenu_witness :
  exists stored m1 w1 t1 m2 w2,
    stored = (if float_ne (float_of_int 3)
                          (float_add (float_of_int 3)
                                     (float_mul (float_of_int 1) (float_of_int 2)))
              then float_add (float_of_int 3)
                             (float_mul (float_of_int 1) (float_of_int 2))
              else float_of_int 3)
    /\ incCurrentParam (float_of_int 2)
         (mkMenu Indet false (false, false) false 30000 0
                 (Some 20%positive) (Some 20%positive)) gain_world
       = Some (m1, w1, t1)
    /\ objects w1
       = <[11%positive :=
             ObjParameter (MenuParameter.ctor "gain" 1 stored (float_of_int 1) true
                                              (Some 2%positive))]>
           (objects gain_world)
    /\ sections w1 = sections gain_world
    /\ _dirty m1 = true /\ _dirt m1 = (false, true)
    /\ callback_calls t1
       = (if float_ne (float_of_int 3)
                      (float_add (float_of_int 3)
                                 (float_mul (float_of_int 1) (float_of_int 2)))
          then [(2%positive, mkEvent 1 (ulong_wrap (clock gain_world)) stored
                                     11%positive)]
          else [])
    /\ printMenu m1 w1
       = Some (m2, w2, [SerialByte 254; SerialByte 192; DelayMs 10; SerialFloat stored])
    /\ _dirty m2 = false /\ _dirt m2 = (false, false).
Proof.
  apply (X17_incCurrentParam_numeric_then_printMenu (float_of_int 2)
           (mkMenu Indet false (false, false) false 30000 0
                   (Some 20%positive) (Some 20%positive))
           gain_world 20%positive
           (MenuSection.mkSection (slots_holding [11%positive]) 1 0)
           11%positive "gain" 1 (float_of_int 3) (float_of_int 1) true
           (Some 2%positive));
    first [reflexivity | simpl; lia].
Defined.

(** X18. [incCurrentParam] cannot move a button. The call goes through
    an [LCDMenuParameter*] and [incValue] is not virtual, so it is the
    numeric [incValue] that runs, on the base part of the button, whose
    [_value] no button constructor or member ever writes: the call reads
    an indeterminate float and the state of the button is not what it
    works on. *)
Theorem X18_incCurrentParam_on_button_undefined
    (steps : float) (m : LCDMenu) (w : World) l s p nm id i df cb values n st :
  _cur_section m = Some l ->
  sections w !! l = Some s ->
  0 <= MenuSection._index s < MenuSection._num_params s ->
  MenuSection._params s !! Z.to_nat (MenuSection._index s) = Some (Init p) ->
  objects w !! p = Some (ObjButton (button nm id Indet i df cb values n st)) ->
  incCurrentParam steps m w = None.
Proof.
  intros Hcur Hsec Hidx Hslot Hobj. unfold incCurrentParam. rewrite Hcur.
  erewrite bind_step
    by (apply (section_getCurrentParameter_in_range w l s p); assumption).
  unfold bind at 1. unfold load_object at 1. rewrite Hobj. reflexivity.
Qed.

Lemma X18_incCurrentParam_on_button_undefined_witness :
  incCurrentParam (float_of_int 1) mode_menu mode_world = None.
Proof.
  apply (X18_incCurrentParam_on_button_undefined (float_of_int 1) mode_menu
           mode_world 21%positive
           (MenuSection.mkSection (slots_holding [12%positive]) 1 0)
           12%positive (Init "mode"%string) 7 Indet Indet None
           (Init ["off"; "low"; "mid"; "high"]%string) 4 0);
    first [reflexivity | simpl; lia].
Defined.

(** The members one public call can change besides the flags. *)
Lemma run_fields (op : Op) (m m' : LCDMenu) (w w' : World) (t : list Effect) :
  run op m w = Some (m', w', t) ->
  _sleep_timeout m' = _sleep_timeout m
  /\ _index m' = _index m
  /\ (_last_activity_time m' = _last_activity_time m
      \/ exists c, _last_activity_time m' = ulong_wrap c)
  /\ match op with
     | OpAddSection section _ =>
         _cur_section m' = section
         /\ _root m' = match _root m with None => section | Some r => Some r end
     | _ => _cur_section m' = _cur_section m /\ _root m' = _root m
     end.
Proof.
  intros H. destruct op; cbn [run] in H.
  - rewrite setDirty_eq in H. injection H as <- _ _. simpl. eauto 10.
  - destruct (_dirty m) eqn:Hd.
    + rewrite (printMenu_dirty_menu m m' w w' t Hd H). simpl. eauto 10.
    + rewrite (printMenu_clean m w Hd) in H.
      destruct (_ >? _); injection H as <- _ _; simpl; eauto 10.
  - unfold nextItem in H. do 2 bind_inv H.
    rewrite setDirty_eq in H. injection H as <- _ _. simpl. eauto 10.
  - unfold prevItem in H. do 2 bind_inv H.
    rewrite setDirty_eq in H. injection H as <- _ _. simpl. eauto 10.
  - unfold incCurrentParam in H. do 6 bind_inv H.
    rewrite setDirty_eq in H. injection H as <- _ _. simpl. eauto 10.
  - unfold addSection in H. rewrite setDirty_eq in H. injection H as <- _ _.
    destruct m as [idx d dd asleep timeout last [r |] cur]; simpl; eauto 10.
  - rewrite stayAwake_eq in H. injection H as <- _ _. simpl. eauto 10.
  - unfold sleep in H. bind_inv H.
    unfold ret in H. injection H as <- _ _. simpl. eauto 10.
Qed.

(** X19. [addSection(section, parent)] makes [section] the current
    section, records it as the root only if no root was recorded before,
    marks the whole display for redraw and leaves the store alone. The
    [parent] argument has no effect at all. *)
Theorem X19_addSection_sets_current_and_first_root
    (section parent parent' : option loc) (m : LCDMenu) (w : World) :
  exists m1 w1 t1,
    addSection section parent m w = Some (m1, w1, t1)
    /\ addSection section parent' m w = Some (m1, w1, t1)
    /\ _cur_section m1 = section
    /\ getCurrentSection m1 = section
    /\ _root m1 = match _root m with None => section | Some r => Some r end
    /\ _dirty m1 = true /\ _dirt m1 = (true, true)
    /\ sections w1 = sections w /\ objects w1 = objects w.
Proof.
  unfold addSection. rewrite setDirty_eq. do 3 eexists.
  split; [reflexivity |]. split; [reflexivity |].
  destruct m as [idx d dd asleep timeout last [r |] cur]; simpl;
    unfold wake_world; simpl; destruct asleep; repeat split.
Qed.

(** X20. In every state an application can bring the menu to, the sleep
    timeout is the 30 000 ms the constructor chose (nothing can change
    it), the time of last activity is a 32-bit counter value, and as long
    as no root section is recorded there is no current section either. *)
Theorem X20_menu_reachable_invariants (m : LCDMenu) :
  reachable m ->
  _sleep_timeout m = 30000
  /\ _index m = Indet
  /\ 0 <= _last_activity_time m < ULONG_MOD
  /\ (_root m = None -> _cur_section m = None).
Proof.
  induction 1 as [w w' m t Hctor | op w w' m m' t _ IH _ Hrun].
  - rewrite ctor_eq in Hctor. injection Hctor as <- _ _. simpl.
    split; [reflexivity |]. split; [reflexivity |].
    split; [apply ulong_wrap_range | reflexivity].
  - destruct IH as (Ht & Hi & Hl & Hr).
    destruct (run_fields op m m' w w' t Hrun) as (Ht' & Hi' & Hl' & Hs').
    split; [congruence |]. split; [congruence |]. split.
    + destruct Hl' as [-> | [c ->]]; [exact Hl | apply ulong_wrap_range].
    + destruct op; try (destruct Hs' as [-> ->]; exact Hr).
      destruct Hs' as [-> ->]. destruct (_root m); [discriminate | auto].
Qed.

Lemma X20_menu_reachable_invariants_witness :
  _sleep_timeout gain_menu = 30000
  /\ _index gain_menu = Indet
  /\ 0 <= _last_activity_time gain_menu < ULONG_MOD
  /\ (_root gain_menu = None -> _cur_section gain_menu = None).
Proof.
  apply (X20_menu_reachable_invariants gain_menu).
  eapply (reachable_step _ (OpAddSection (Some 20%positive) None) gain_world
            gain_world idle_menu gain_menu []).
  - eapply (reachable_step _ (OpSetDirty false 0) empty_world empty_world
              (mkMenu Indet true (true, true) false 30000 30 None None)
              idle_menu []).
    + eapply (reachable_ctor _ empty_world). reflexivity.
    + exact I.
    + reflexivity.
  - exact I.
  - reflexivity.
Defined.

(** X21. Once a root section is recorded no public call changes it, and
    only [addSection] changes the current section. *)
Theorem X21_menu_root_never_changes (op : Op) (m m' : LCDMenu) (w w' : World)
    (t : list Effect) (r : loc) :
  _root m = Some r ->
  run op m w = Some (m', w', t) ->
  _root m' = Some r
  /\ match op with
     | OpAddSection section _ => _cur_section m' = section
     | _ => _cur_section m' = _cur_section m
     end.
Proof.
  intros Hr Hrun.
  destruct (run_fields op m m' w w' t Hrun) as (_ & _ & _ & Hs).
  destruct op; destruct Hs as [Hc Hroot]; rewrite Hroot, ?Hr; auto.
Qed.

Lemma X21_menu_root_never_changes_witness :
  _root (mkMenu Indet true (true, true) false 30000 0
                (Some 20%positive) (Some 21%positive)) = Some 20%positive
  /\ _cur_section (mkMenu Indet true (true, true) false 30000 0
                          (Some 20%positive) (Some 21%positive)) = Some 21%positive.
Proof.
  apply (X21_menu_root_never_changes (OpAddSection (Some 21%positive) None)
           gain_menu
           (mkMenu Indet true (true, true) false 30000 0
                   (Some 20%positive) (Some 21%positive))
           gain_world gain_world [] 20%positive);
    reflexivity.
Defined.

(** X22. [goTo(position)] sends one cursor command. Positions 0 to 15
    address the columns of row 1 (bytes 128 to 143), positions 16 to 31
    those of row 2 (bytes 192 to 207); from 32 on the cursor is sent to
    the first column of row 1 and the call waits 20 ms instead of 10. A
    negative position from [-128] on is not rejected: the byte sent is
    below 128, which is no cursor address. *)
Theorem X22_goTo_addresses (position : Z) (w : World) :
  (0 <= position < 16 ->
   goTo position w
   = Some (tt, mkWorld (sections w) (objects w) (clock w + 10),
           [SerialByte 254; SerialByte (128 + position); DelayMs 10])
   /\ row_of_position (128 + position) = Some 1)
  /\ (16 <= position < 32 ->
      goTo position w
      = Some (tt, mkWorld (sections w) (objects w) (clock w + 10),
              [SerialByte 254; SerialByte (192 + (position - 16)); DelayMs 10])
      /\ row_of_position (192 + (position - 16)) = Some 2)
  /\ (32 <= position ->
      goTo position w
      = Some (tt, mkWorld (sections w) (objects w) (clock w + 10 + 10),
              [SerialByte 254; SerialByte 128; DelayMs 10; DelayMs 10]))
  /\ (-128 <= position < 0 ->
      goTo position w
      = Some (tt, mkWorld (sections w) (objects w) (clock w + 10),
              [SerialByte 254; SerialByte (128 + position); DelayMs 10])
      /\ row_of_position (128 + position) = None).
Proof.
  destruct w as [ss os c]. unfold goTo. repeat split.
  - destruct (Z.ltb_spec position 16); [| lia].
    rewrite int_add_id by int_range.
    unfold bind, Serial_print_byte, emit, delay; simpl.
    rewrite (Z.mod_small (position + 128) 256) by lia.
    replace (position + 128) with (128 + position) by lia. reflexivity.
  - unfold row_of_position.
    destruct (Z.leb_spec 128 (128 + position)); [| lia].
    destruct (Z.ltb_spec (128 + position) 144); [reflexivity | lia].
  - destruct (Z.ltb_spec position 16); [lia |].
    destruct (Z.ltb_spec position 32); [| lia].
    rewrite (int_add_id position 48) by int_range.
    rewrite int_add_id by int_range.
    unfold bind, Serial_print_byte, emit, delay; simpl.
    rewrite (Z.mod_small (position + 48 + 128) 256) by lia.
    replace (position + 48 + 128) with (192 + (position - 16)) by lia. reflexivity.
  - unfold row_of_position.
    destruct (Z.leb_spec 128 (192 + (position - 16))); [| lia].
    destruct (Z.ltb_spec (192 + (position - 16)) 144); [lia |].
    destruct (Z.leb_spec 192 (192 + (position - 16))); [| lia].
    destruct (Z.ltb_spec (192 + (position - 16)) 208); [reflexivity | lia].
  - destruct (Z.ltb_spec position 16); [lia |].
    destruct (Z.ltb_spec position 32); [lia |]. reflexivity.
  - destruct (Z.ltb_spec position 16); [| lia].
    rewrite int_add_id by int_range.
    unfold bind, Serial_print_byte, emit, delay; simpl.
    rewrite (Z.mod_small (position + 128) 256) by lia.
    replace (position + 128) with (128 + position) by lia. reflexivity.
  - unfold row_of_position.
    destruct (Z.leb_spec 128 (128 + position)); [lia |].
    destruct (Z.leb_spec 192 (128 + position)); [lia | reflexivity].
Qed.

(** X25. A row flag that [setDirty(false, row)] leaves behind comes back
    later. If row 2 is flagged, [setDirty(false, 1)] clears the
    any-redraw flag but not that flag, so [printMenu] draws nothing; a
    later [setDirty(true, 1)], meant for row 1 only, then finds both
    flags set, and [printMenu] clears the screen and rewrites row 2 as
    well. *)
Theorem X25_leftover_row_flag_is_redrawn (m : LCDMenu) (w : World) l s p o name row2 :
  snd (_dirt m) = true ->
  _cur_section m = Some l ->
  sections w !! l = Some s ->
  0 <= MenuSection._index s < MenuSection._num_params s ->
  MenuSection._params s !! Z.to_nat (MenuSection._index s) = Some (Init p) ->
  objects w !! p = Some o ->
  MenuParameter.getName (base_of o) = Some name ->
  row_two o = Some row2 ->
  exists m1 w1 t1 m2 w2 t2 m3 w3,
    setDirty false 1 m w = Some (m1, w1, t1)
    /\ _dirty m1 = false /\ _dirt m1 = (false, true)
    /\ printMenu m1 w1 = Some (m1, w1, [])
    /\ setDirty true 1 m1 w1 = Some (m2, w2, t2)
    /\ t2 = []
    /\ printMenu m2 w2
       = Some (m3, w3,
               [SerialByte 254; SerialByte 1; DelayMs 10;
                SerialByte 254; SerialByte 128; DelayMs 10; SerialText name;
                SerialByte 254; SerialByte 192; DelayMs 10; row2]).
Proof.
  intros Hrow Hcur Hsec Hidx Hslot Hobj Hname Hrow2.
  destruct m as [idx d [d0 d1] asleep timeout last root cur].
  simpl in Hrow, Hcur. subst d1 cur.
  assert (Hsec1 : sections (wake_world
                              (mkMenu idx d (d0, true) asleep timeout last root (Some l))
                              w) !! l = Some s)
    by (unfold wake_world; destruct asleep; exact Hsec).
  assert (Hobj1 : objects (wake_world
                             (mkMenu idx d (d0, true) asleep timeout last root (Some l))
                             w) !! p = Some o)
    by (unfold wake_world; destruct asleep; exact Hobj).
  do 8 eexists. split; [apply setDirty_eq |].
  split; [reflexivity |]. split; [reflexivity |]. split.
  { rewrite printMenu_clean by reflexivity.
    cbn [_last_activity_time _sleep_timeout].
    unfold ulong_sub. rewrite Z.sub_diag.
    pose proof (ulong_wrap_range timeout) as Ht. fold (ulong_of_int timeout) in Ht.
    destruct (Z.gtb_spec (ulong_wrap 0) (ulong_of_int timeout)) as [Hgt | _];
      [| reflexivity].
    change (ulong_wrap 0) with 0 in Hgt. lia. }
  split; [apply setDirty_eq |]. split; [reflexivity |].
  erewrite (printMenu_dirty _ _ l s p o name row2);
    first [reflexivity | eassumption | idtac].
Qed.

Lemma X25_leftover_row_flag_is_redrawn_witness :
  exists m1 w1 t1 m2 w2 t2 m3 w3,
    setDirty false 1 gain_menu gain_world = Some (m1, w1, t1)
    /\ _dirty m1 = false /\ _dirt m1 = (false, true)
    /\ printMenu m1 w1 = Some (m1, w1, [])
    /\ setDirty true 1 m1 w1 = Some (m2, w2, t2)
    /\ t2 = []
    /\ printMenu m2 w2
       = Some (m3, w3,
               [SerialByte 254; SerialByte 1; DelayMs 10;
                SerialByte 254; SerialByte 128; DelayMs 10; SerialText "gain";
                SerialByte 254; SerialByte 192; DelayMs 10;
                SerialFloat (float_of_int 3)]).
Proof.
  apply (X25_leftover_row_flag_is_redrawn gain_menu gain_world 20%positive
           (MenuSection.mkSection (slots_holding [11%positive]) 1 0)
           11%positive (ObjParameter gain) "gain" (SerialFloat (float_of_int 3)));
    first [reflexivity | simpl; lia].
Defined.

End MenuCoverage.
